(** * GoodWe inverter numeric settings (custom_components/goodwe/number.py)

    A shallow embedding of the number platform of the GoodWe integration:
    the [NUMBERS] descriptor tuple, [async_setup_entry] and the
    [InverterNumberEntity] class, together with the properties of the
    setup routine and of user-initiated writes.

    The inverter and the host platform are external.  Calls into them are
    recorded in an event log; the inverter answers through an arbitrary
    deterministic transition function on its own state. *)

From Stdlib Require Import ZArith String List Lia.
From Stdlib Require Import Floats.SpecFloat.
From stdpp Require Import gmap strings list.

Local Open Scope string_scope.

(** ** Python values and exceptions *)

(** The exception classes that matter to this module.  Subclasses are
    folded into the base class an [except] clause would match them by;
    [Exception] stands for any other class. *)
Inductive exn : Type :=
| InverterError
| ValueError
| TypeError
| AttributeError
| OverflowError
| KeyError
| Exception (cls : string).

Inductive result (A : Type) : Type :=
| Ok (a : A)
| Raise (e : exn).
Arguments Ok {A} a.
Arguments Raise {A} e.

(** Python [float] is IEEE 754 binary64. *)
Definition float : Type := spec_float.
Definition prec : Z := 53.
Definition emax : Z := 1024.

(** Values the inverter library hands back to a getter: [None], integers,
    floats and structured settings objects (attribute name, value). *)
#[warnings="-register-all"]
Inductive pyobj : Type :=
| PyNone
| PyInt (z : Z)
| PyFloat (f : float)
| PyObject (attrs : list (string * pyobj)).

(** Truth value testing, as in [v if c else w].  An object that defines
    neither [__bool__] nor [__len__] is true. *)
Definition py_bool (v : pyobj) : bool :=
  match v with
  | PyNone => false
  | PyInt z => negb (z =? 0)%Z
  | PyFloat (S754_zero _) => false
  | PyFloat _ => true
  | PyObject _ => true
  end.

Fixpoint lookup_attr (name : string) (attrs : list (string * pyobj)) : option pyobj :=
  match attrs with
  | [] => None
  | (n, v) :: rest => if String.eqb n name then Some v else lookup_attr name rest
  end.

(** [v.name] *)
Definition getattr (v : pyobj) (name : string) : result pyobj :=
  match v with
  | PyObject attrs =>
      match lookup_attr name attrs with
      | Some x => Ok x
      | None => Raise AttributeError
      end
  | _ => Raise AttributeError
  end.

(** [abs(v)] *)
Definition py_abs (v : pyobj) : result pyobj :=
  match v with
  | PyInt z => Ok (PyInt (Z.abs z))
  | PyFloat f => Ok (PyFloat (SFabs f))
  | _ => Raise TypeError
  end.

(** [float(v)]: an integer is rounded to nearest-even and overflows past
    the largest finite double. *)
Definition py_float (v : pyobj) : result float :=
  match v with
  | PyInt z =>
      match binary_normalize prec emax z 0 false with
      | S754_infinity _ => Raise OverflowError
      | f => Ok f
      end
  | PyFloat f => Ok f
  | _ => Raise TypeError
  end.

(** [int(x)] for a float [x]: truncation towards zero. *)
Definition py_int (x : float) : result Z :=
  match x with
  | S754_zero _ => Ok 0%Z
  | S754_finite s m e => Ok (cond_Zopp s (Z.shiftl (Z.pos m) e))
  | S754_infinity _ => Raise OverflowError
  | S754_nan => Raise ValueError
  end.

(** ** State and exceptions

    A computation runs on a state and either returns or raises; the state
    reached is kept in both cases. *)
Definition M (S A : Type) : Type := S -> result A * S.

Definition ret {S A : Type} (a : A) : M S A := fun s => (Ok a, s).

Definition raise {S A : Type} (e : exn) : M S A := fun s => (Raise e, s).

Definition lift {S A : Type} (r : result A) : M S A := fun s => (r, s).

Definition bind {S A B : Type} (m : M S A) (k : A -> M S B) : M S B :=
  fun s =>
    match m s with
    | (Ok a, s1) => k a s1
    | (Raise e, s1) => (Raise e, s1)
    end.

Notation "'let!' x ':=' m 'in' k" := (bind m (fun x => k))
  (at level 10, x pattern, m at level 100, k at level 200).

(** [try: body / except classes: handler] *)
Definition try_except {S A : Type}
    (body : M S A) (classes : exn -> bool) (handler : M S A) : M S A :=
  fun s =>
    match body s with
    | (Raise e, s1) => if classes e then handler s1 else (Raise e, s1)
    | done => done
    end.

(** ** The inverter *)

(** The handle of the connected inverter: [type_name] is
    [type(inv).__name__]. *)
Record Inverter : Type := mkInverter {
  type_name : string;
  serial_number : string;
}.

(** The coroutines of the inverter library this module awaits. *)
Inductive Awaitable : Type :=
| get_grid_export_limit (inv : Inverter)
| set_grid_export_limit (inv : Inverter) (val : Z)
| get_ongrid_battery_dod (inv : Inverter)
| set_ongrid_battery_dod (inv : Inverter) (val : Z)
| read_setting (inv : Inverter) (setting_id : string).

(** ** Descriptors *)

Inductive EntityCategory : Type := CONFIG | DIAGNOSTIC.
Inductive NumberDeviceClass : Type := POWER.
Inductive Unit_ : Type := WATT | PERCENTAGE.

Record GoodweNumberEntityDescription : Type := mkDescription {
  key : string;
  name : string;
  icon : string;
  entity_category : EntityCategory;
  device_class : option NumberDeviceClass;
  native_unit_of_measurement : Unit_;
  native_step : Z;
  native_min_value : Z;
  native_max_value : Z;
  getter : Inverter -> Awaitable;
  mapper : pyobj -> result pyobj;
  setter : option (Inverter -> Z -> Awaitable);
  filter : Inverter -> bool;
}.

Definition NUMBERS : list GoodweNumberEntityDescription := [
  (* non DT inverters (limit in W) *)
  {| key := "grid_export_limit";
     name := "Grid export limit";
     icon := "mdi:transmission-tower";
     entity_category := CONFIG;
     device_class := Some POWER;
     native_unit_of_measurement := WATT;
     native_step := 100;
     native_min_value := 0;
     native_max_value := 10000;
     getter := fun inv => get_grid_export_limit inv;
     mapper := fun v => Ok v;
     setter := Some (fun inv val => set_grid_export_limit inv val);
     filter := fun inv => negb (String.eqb (type_name inv) "DT") |};
  (* DT inverters (limit is in %) *)
  {| key := "grid_export_limit";
     name := "Grid export limit";
     icon := "mdi:transmission-tower";
     entity_category := CONFIG;
     device_class := None;
     native_unit_of_measurement := PERCENTAGE;
     native_step := 1;
     native_min_value := 0;
     native_max_value := 100;
     getter := fun inv => get_grid_export_limit inv;
     mapper := fun v => Ok v;
     setter := Some (fun inv val => set_grid_export_limit inv val);
     filter := fun inv => String.eqb (type_name inv) "DT" |};
  {| key := "battery_discharge_depth";
     name := "Depth of discharge (on-grid)";
     icon := "mdi:battery-arrow-down";
     entity_category := CONFIG;
     device_class := None;
     native_unit_of_measurement := PERCENTAGE;
     native_step := 1;
     native_min_value := 0;
     native_max_value := 99;
     getter := fun inv => get_ongrid_battery_dod inv;
     mapper := fun v => Ok v;
     setter := Some (fun inv val => set_ongrid_battery_dod inv val);
     filter := fun inv => true |};
  {| key := "eco_mode_power";
     name := "Eco mode power";
     icon := "mdi:battery-charging-low";
     entity_category := CONFIG;
     device_class := None;
     native_unit_of_measurement := PERCENTAGE;
     native_step := 1;
     native_min_value := 0;
     native_max_value := 100;
     getter := fun inv => read_setting inv "eco_mode_1";
     mapper := fun v =>
       if py_bool v then
         match getattr v "power" with
         | Ok p => py_abs p
         | Raise e => Raise e
         end
       else Ok (PyInt 0);
     setter := None;
     filter := fun inv => true |};
  {| key := "eco_mode_soc";
     name := "Eco mode SoC";
     icon := "mdi:battery-charging-low";
     entity_category := CONFIG;
     device_class := None;
     native_unit_of_measurement := PERCENTAGE;
     native_step := 1;
     native_min_value := 0;
     native_max_value := 100;
     getter := fun inv => read_setting inv "eco_mode_1";
     mapper := fun v => if py_bool v then getattr v "soc" else Ok (PyInt 0);
     setter := None;
     filter := fun inv => true |}
]%Z.

(** ** The host platform and the world *)

(** [DeviceInfo] is a dictionary of strings owned by the host. *)
Definition DeviceInfo : Type := list (string * string).

Record InverterNumberEntity : Type := mkEntity {
  entity_description : GoodweNumberEntityDescription;
  _attr_unique_id : string;
  _attr_device_info : DeviceInfo;
  _attr_native_value : float;
  _inverter : Inverter;
}.

Definition with_native_value
    (self : InverterNumberEntity) (value : float) : InverterNumberEntity :=
  {| entity_description := entity_description self;
     _attr_unique_id := _attr_unique_id self;
     _attr_device_info := _attr_device_info self;
     _attr_native_value := value;
     _inverter := _inverter self |}.

(** What the module does to the outside, in the order it does it. *)
Inductive event : Type :=
| EvAwait (call : Awaitable)
    (* a coroutine of the inverter library was awaited *)
| EvWriteHAState (unique_id : string) (native_value : float)
    (* [async_write_ha_state()], with the state the host reads *)
| EvAddEntities (entities : list InverterNumberEntity)
    (* [async_add_entities(entities)] *)
| EvLogDebug (setting : string).
    (* [_LOGGER.debug("Could not read inverter setting %s", setting)] *)

Definition is_await (ev : event) : bool :=
  match ev with EvAwait _ => true | _ => false end.

Definition is_write_ha_state (ev : event) : bool :=
  match ev with EvWriteHAState _ _ => true | _ => false end.

Definition is_add_entities (ev : event) : bool :=
  match ev with EvAddEntities _ => true | _ => false end.

(** The dictionary [hass.data[DOMAIN][entry_id]]: what it holds under
    [KEY_INVERTER] and under [KEY_DEVICE_INFO], when the key is present. *)
Record EntryData : Type := mkEntryData {
  at_KEY_INVERTER : option Inverter;
  at_KEY_DEVICE_INFO : option DeviceInfo;
}.

Record HomeAssistant : Type := mkHass {
  data : gmap string (gmap string EntryData);
}.

Record ConfigEntry : Type := mkConfigEntry {
  entry_id : string;
}.

Section Platform.

(** The domain tag of [const.py]. *)
Variable DOMAIN : string.

(** The inverter behind the handle: its state and how it answers an
    awaited coroutine. *)
Variable DevState : Type.
Variable respond : Awaitable -> DevState -> result pyobj * DevState.

Record World : Type := mkWorld {
  device : DevState;
  events : list event;
}.

Definition emit (ev : event) : M World unit :=
  fun w => (Ok tt, {| device := device w; events := events w ++ [ev] |}).

(** [await call] *)
Definition await (call : Awaitable) : M World pyobj :=
  fun w =>
    let (r, d) := respond call (device w) in
    (r, {| device := d; events := events w ++ [EvAwait call] |}).

(** [d[k]] *)
Definition getitem {S V : Type} (d : gmap string V) (k : string) : M S V :=
  match d !! k with
  | Some v => ret v
  | None => raise KeyError
  end.

(** ** InverterNumberEntity *)

Definition __init__
    (device_info : DeviceInfo)
    (description : GoodweNumberEntityDescription)
    (inverter : Inverter)
    (current_value : pyobj) : result InverterNumberEntity :=
  match py_float current_value with
  | Ok native_value =>
      Ok {| entity_description := description;
            _attr_unique_id :=
              DOMAIN ++ "-" ++ key description ++ "-" ++ serial_number inverter;
            _attr_device_info := device_info;
            _attr_native_value := native_value;
            _inverter := inverter |}
  | Raise e => Raise e
  end.

(** A method runs on its object and the world. *)
Definition Method (A : Type) : Type := M (InverterNumberEntity * World) A.

Definition self_ : Method InverterNumberEntity :=
  fun s => (Ok (fst s), s).

Definition in_world {A : Type} (m : M World A) : Method A :=
  fun s => let (r, w) := m (snd s) in (r, (fst s, w)).

(** [self._attr_native_value = value] *)
Definition set_attr_native_value (value : float) : Method unit :=
  fun s => (Ok tt, (with_native_value (fst s) value, snd s)).

(** [self.async_write_ha_state()] *)
Definition async_write_ha_state : Method unit :=
  let! self := self_ in
  in_world (emit (EvWriteHAState (_attr_unique_id self) (_attr_native_value self))).

Definition async_set_native_value (value : float) : Method unit :=
  let! self := self_ in
  let! _ :=
    match setter (entity_description self) with
    | Some set =>
        let! n := lift (py_int value) in
        let! _ := in_world (await (set (_inverter self) n)) in
        ret tt
    | None => ret tt
    end in
  let! _ := set_attr_native_value value in
  async_write_ha_state.

(** ** Setup *)

Definition caught (e : exn) : bool :=
  match e with
  | InverterError | ValueError => true
  | _ => false
  end.

(** [description.mapper(await description.getter(inverter))] *)
Definition read_current_value
    (description : GoodweNumberEntityDescription) (inverter : Inverter)
  : M World pyobj :=
  let! raw := await (getter description inverter) in
  lift (mapper description raw).

(** The body of the [for] loop; [None] from the handler is [continue]. *)
Definition loop_body
    (device_info : DeviceInfo) (inverter : Inverter)
    (description : GoodweNumberEntityDescription)
    (entities : list InverterNumberEntity)
  : M World (list InverterNumberEntity) :=
  let! current :=
    try_except
      (let! v := read_current_value description inverter in ret (Some v))
      caught
      (let! _ := emit (EvLogDebug (key description)) in ret None) in
  match current with
  | None => ret entities
  | Some current_value =>
      let! entity :=
        lift (__init__ device_info description inverter current_value) in
      ret (entities ++ [entity])%list
  end.

Fixpoint for_each
    (device_info : DeviceInfo) (inverter : Inverter)
    (descriptions : list GoodweNumberEntityDescription)
    (entities : list InverterNumberEntity)
  : M World (list InverterNumberEntity) :=
  match descriptions with
  | [] => ret entities
  | description :: rest =>
      let! entities := loop_body device_info inverter description entities in
      for_each device_info inverter rest entities
  end.

(** [d[KEY]] on the dictionary of a config entry *)
Definition entry_item {S V : Type} (v : option V) : M S V :=
  match v with
  | Some x => ret x
  | None => raise KeyError
  end.

(** The body of [async_setup_entry] over an arbitrary descriptor tuple.
    Python's [filter] is lazy; the predicate only reads the class name of
    the inverter, so filtering ahead of the loop changes nothing. *)
Definition setup_with
    (descriptions : list GoodweNumberEntityDescription)
    (hass : HomeAssistant) (config_entry : ConfigEntry) : M World unit :=
  let! domain_data := getitem (data hass) DOMAIN in
  let! entry_data := getitem domain_data (entry_id config_entry) in
  let! inverter := entry_item (at_KEY_INVERTER entry_data) in
  let! domain_data := getitem (data hass) DOMAIN in
  let! entry_data := getitem domain_data (entry_id config_entry) in
  let! device_info := entry_item (at_KEY_DEVICE_INFO entry_data) in
  let! entities :=
    for_each device_info inverter
      (List.filter (fun dsc => filter dsc inverter) descriptions) [] in
  emit (EvAddEntities entities).

Definition async_setup_entry : HomeAssistant -> ConfigEntry -> M World unit :=
  setup_with NUMBERS.

End Platform.

Arguments mkWorld {DevState} device events.
Arguments device {DevState} w.
Arguments events {DevState} w.
Arguments emit {DevState} ev.
Arguments await {DevState} respond call.
Arguments Method DevState A : clear implicits.
Arguments self_ {DevState}.
Arguments in_world {DevState A} m.
Arguments set_attr_native_value {DevState} value.
Arguments async_write_ha_state {DevState}.
Arguments async_set_native_value {DevState} respond value.
Arguments read_current_value {DevState} respond description inverter.
Arguments loop_body DOMAIN {DevState} respond device_info inverter description entities.
Arguments for_each DOMAIN {DevState} respond device_info inverter descriptions entities.
Arguments setup_with DOMAIN {DevState} respond descriptions hass config_entry.
Arguments async_setup_entry DOMAIN {DevState} respond hass config_entry.

(** ** A small inverter to run the module on

    It stores an export limit and, when it has a battery, a depth of
    discharge; it knows one eco-mode setting.  While it is out of reach
    every request fails. *)
Module Demo.

Record State : Type := mkState {
  reachable : bool;
  limit : Z;
  dod : option Z;
}.

Definition respond (call : Awaitable) (st : State) : result pyobj * State :=
  if negb (reachable st) then (Raise InverterError, st) else
  match call with
  | get_grid_export_limit _ => (Ok (PyInt (limit st)), st)
  | set_grid_export_limit _ val =>
      (Ok PyNone, {| reachable := true; limit := val; dod := dod st |})
  | get_ongrid_battery_dod _ =>
      match dod st with
      | Some d => (Ok (PyInt d), st)
      | None => (Raise InverterError, st)
      end
  | set_ongrid_battery_dod _ val =>
      match dod st with
      | Some _ =>
          (Ok PyNone, {| reachable := true; limit := limit st; dod := Some val |})
      | None => (Raise InverterError, st)
      end
  | read_setting _ setting_id =>
      if String.eqb setting_id "eco_mode_1"
      then (Ok (PyObject [("power", PyInt (-450)); ("soc", PyInt 20)]), st)
      else (Raise ValueError, st)
  end.

Definition DOMAIN : string := "goodwe".

Definition et : Inverter := {| type_name := "ET"; serial_number := "95027EST" |}.
Definition dt : Inverter := {| type_name := "DT"; serial_number := "6050KDTU" |}.

Definition device_info : DeviceInfo := [("name", "GoodWe")].

(** In reach, export limit 5000, no battery. *)
Definition world0 : World State :=
  {| device := {| reachable := true; limit := 5000; dod := None |};
     events := [] |}.

Definition offline : World State :=
  {| device := {| reachable := false; limit := 5000; dod := None |};
     events := [] |}.

Definition hass_of (inv : Inverter) : HomeAssistant :=
  {| data :=
       {[ DOMAIN :=
            {[ "entry-1" :=
                 {| at_KEY_INVERTER := Some inv;
                    at_KEY_DEVICE_INFO := Some device_info |} ]} ]} |}.

Definition config_entry : ConfigEntry := {| entry_id := "entry-1" |}.

(** 2500.0, 5000.0 and 42.75 as doubles *)
Definition f2500 : float := S754_finite false 5497558138880000 (-41).
Definition f5000 : float := S754_finite false 5497558138880000 (-40).
Definition f42_75 : float := S754_finite false 6016527627190272 (-47).

Definition descr (i : nat) : GoodweNumberEntityDescription :=
  nth i NUMBERS
    (mkDescription "" "" "" CONFIG None WATT 0 0 0
       (fun inv => get_grid_export_limit inv) (fun v => Ok v) None
       (fun _ => false)).

Definition entity_of (i : nat) (inv : Inverter) (value : float)
  : InverterNumberEntity :=
  {| entity_description := descr i;
     _attr_unique_id := DOMAIN ++ "-" ++ key (descr i) ++ "-" ++ serial_number inv;
     _attr_device_info := device_info;
     _attr_native_value := value;
     _inverter := inv |}.

(** The world a setup on the ET inverter ends in. *)
Definition after_setup : World State :=
  snd (async_setup_entry DOMAIN respond (hass_of et) config_entry world0).

(** In reach, with a battery at 80 % depth of discharge. *)
Definition with_battery : World State :=
  {| device := {| reachable := true; limit := 5000; dod := Some 80%Z |};
     events := [] |}.

(** A host that has no data for the integration. *)
Definition bare_hass : HomeAssistant := {| data := ∅ |}.

(** A host whose entry lost its device information. *)
Definition half_hass : HomeAssistant :=
  {| data :=
       {[ DOMAIN :=
            {[ "entry-1" :=
                 {| at_KEY_INVERTER := Some et;
                    at_KEY_DEVICE_INFO := None |} ]} ]} |}.

(** An inverter whose eco-mode setting reads as a bare number. *)
Definition respond_bare (call : Awaitable) (st : State) : result pyobj * State :=
  match call with
  | read_setting _ _ => (Ok (PyInt 7), st)
  | _ => respond call st
  end.

(** An inverter whose export limit reads as [None]. *)
Definition respond_no_limit (call : Awaitable) (st : State)
  : result pyobj * State :=
  match call with
  | get_grid_export_limit _ => (Ok PyNone, st)
  | _ => respond call st
  end.

End Demo.

(** ** The course of the setup loop

    The loop visits the descriptors of the tuple in order; the inverter
    may answer differently each time, so what a descriptor's read yields
    is judged in the world the loop has reached when it gets there. *)
Section Visits.

Context {DevState : Type}.
Variable respond : Awaitable -> DevState -> result pyobj * DevState.

(** The world in which the loop leaves one descriptor of the tuple. *)
Definition world_after
    (inverter : Inverter) (description : GoodweNumberEntityDescription)
    (w : World DevState) : World DevState :=
  if filter description inverter then
    match read_current_value respond description inverter w with
    | (Ok _, w1) => w1
    | (Raise e, w1) =>
        if caught e then snd (emit (EvLogDebug (key description)) w1) else w1
    end
  else w.

(** The world in which the loop reaches the descriptor at index [i]. *)
Fixpoint world_at
    (inverter : Inverter) (descriptions : list GoodweNumberEntityDescription)
    (w : World DevState) (i : nat) : World DevState :=
  match i, descriptions with
  | S j, description :: rest =>
      world_at inverter rest (world_after inverter description w) j
  | _, _ => w
  end.

(** The descriptor's getter and mapper went through when the loop got to
    index [i]. *)
Definition read_succeeds_at
    (inverter : Inverter) (descriptions : list GoodweNumberEntityDescription)
    (w : World DevState) (i : nat)
    (description : GoodweNumberEntityDescription) : Prop :=
  exists v,
    fst (read_current_value respond description inverter
           (world_at inverter descriptions w i)) = Ok v.

End Visits.

(** The entities which a batch call handed to the host. *)
Definition registered (ev : event) : list InverterNumberEntity :=
  match ev with
  | EvAddEntities entities => entities
  | _ => []
  end.

(** The coroutines awaited and the settings logged as unreadable, in a
    stretch of the log. *)
Definition awaited (evs : list event) : list Awaitable :=
  omap (fun ev => match ev with EvAwait call => Some call | _ => None end) evs.

Definition logged (evs : list event) : list string :=
  omap (fun ev => match ev with EvLogDebug k => Some k | _ => None end) evs.

(** The values of which the host was notified, in a stretch of the log. *)
Definition notified (evs : list event) : list float :=
  omap (fun ev => match ev with EvWriteHAState _ v => Some v | _ => None end) evs.

(** The coroutines that only read from the inverter. *)
Definition is_read (call : Awaitable) : bool :=
  match call with
  | get_grid_export_limit _ | get_ongrid_battery_dod _ | read_setting _ _ => true
  | set_grid_export_limit _ _ | set_ongrid_battery_dod _ _ => false
  end.

(** The inverter on which a coroutine was called. *)
Definition target (call : Awaitable) : Inverter :=
  match call with
  | get_grid_export_limit inv | set_grid_export_limit inv _
  | get_ongrid_battery_dod inv | set_ongrid_battery_dod inv _
  | read_setting inv _ => inv
  end.

(** [hass.data[DOMAIN][entry_id]], when both keys are there. *)
Definition entry_of (DOMAIN : string) (hass : HomeAssistant)
    (config_entry : ConfigEntry) : option EntryData :=
  (data hass !! DOMAIN) ≫= (fun d => d !! entry_id config_entry).

(** A value survives [float] followed by [int]. *)
Definition round_trips (k : Z) : bool :=
  match py_float (PyInt k) with
  | Ok f => match py_int f with Ok n => (n =? k)%Z | Raise _ => false end
  | Raise _ => false
  end.

(** * Properties *)

Local Open Scope list_scope.

(** ** Conversions *)

Lemma py_int_truncates_fraction (s : bool) (m : positive) (e : Z) :
  (e < 0)%Z ->
  py_int (S754_finite s m e) =
    Ok (Z.quot (cond_Zopp s (Z.pos m)) (2 ^ (- e))).
Proof.
  intros He. simpl. f_equal.
  rewrite Z.shiftl_div_pow2 by lia.
  assert (0 < 2 ^ (- e))%Z by (apply Z.pow_pos_nonneg; lia).
  destruct s; simpl.
  - change (Z.neg m) with (- Z.pos m)%Z.
    rewrite Z.quot_opp_l, Z.quot_div_nonneg by lia. reflexivity.
  - rewrite Z.quot_div_nonneg by lia. reflexivity.
Qed.

Lemma py_int_whole (s : bool) (m : positive) (e : Z) :
  (0 <= e)%Z ->
  py_int (S754_finite s m e) = Ok (cond_Zopp s (Z.pos m) * 2 ^ e)%Z.
Proof.
  intros He. simpl. f_equal.
  rewrite Z.shiftl_mul_pow2 by lia.
  destruct s; simpl; lia.
Qed.

Lemma py_int_raises_iff (x : float) (e : exn) :
  py_int x = Raise e <->
  (x = S754_nan /\ e = ValueError) \/
  (exists s, x = S754_infinity s /\ e = OverflowError).
Proof.
  destruct x; simpl; split; intros H;
    repeat match goal with
           | H : _ \/ _ |- _ => destruct H
           | H : _ /\ _ |- _ => destruct H
           | H : exists _, _ |- _ => destruct H
           end; try discriminate; subst; eauto.
  - inversion H; eauto.
  - inversion H; eauto.
Qed.

(** ** User-initiated writes *)

Section Writes.

Context {DevState : Type}.
Variable respond : Awaitable -> DevState -> result pyobj * DevState.

Local Abbreviation write := (async_set_native_value respond).

Ltac run_write :=
  unfold async_set_native_value, async_write_ha_state, set_attr_native_value,
    in_world, self_, await, emit, bind, lift, ret; simpl.

(** C1, as the code has it.  A write of [V] to an entity whose descriptor
    has a setter first takes [int(V)], which exists exactly for a finite
    [V].  For a finite [V] it awaits that setter exactly once, on the
    entity's inverter and [int(V)]: when the call returns, the write
    returns, the cached value is [V] and the host has been told so, the
    setter call and the notification being all that happened; when the
    call raises, the write raises the same and the call is all that
    happened.  For a NaN or an infinity [int(V)] raises, and so does the
    write, before the setter is called: nothing has happened. *)
Theorem write_calls_setter_once
    (self : InverterNumberEntity) (V : float) (w : World DevState)
    (set : Inverter -> Z -> Awaitable) :
  setter (entity_description self) = Some set ->
  (forall (n : Z) (answer : pyobj) (d : DevState),
     py_int V = Ok n ->
     respond (set (_inverter self) n) (device w) = (Ok answer, d) ->
     write V (self, w) =
       (Ok tt,
        (with_native_value self V,
         {| device := d;
            events := events w ++
              [EvAwait (set (_inverter self) n);
               EvWriteHAState (_attr_unique_id self) V] |}))) /\
  (forall (n : Z) (e : exn) (d : DevState),
     py_int V = Ok n ->
     respond (set (_inverter self) n) (device w) = (Raise e, d) ->
     write V (self, w) =
       (Raise e,
        (self,
         {| device := d;
            events := events w ++ [EvAwait (set (_inverter self) n)] |}))) /\
  (forall e : exn,
     py_int V = Raise e ->
     write V (self, w) = (Raise e, (self, w))) /\
  match V with
  | S754_nan => py_int V = Raise ValueError
  | S754_infinity _ => py_int V = Raise OverflowError
  | _ => exists n : Z, py_int V = Ok n
  end.
Proof.
  intros Hset. split; [|split; [|split]].
  - intros n answer d Hint Hcall. run_write.
    rewrite Hset. run_write. rewrite Hint, Hcall. simpl.
    rewrite <- app_assoc. reflexivity.
  - intros n e d Hint Hcall. run_write.
    rewrite Hset. run_write. rewrite Hint, Hcall. reflexivity.
  - intros e Hint. run_write. rewrite Hset. run_write. rewrite Hint.
    destruct w; reflexivity.
  - destruct V; simpl; eauto.
Qed.

(** There is no [int(V)] for a NaN or an infinity: such a write raises
    before it gets to the setter, and nothing has happened. *)
Lemma write_without_int_raises
    (self : InverterNumberEntity) (V : float) (w : World DevState)
    (set : Inverter -> Z -> Awaitable) (e : exn) :
  setter (entity_description self) = Some set ->
  py_int V = Raise e ->
  write V (self, w) = (Raise e, (self, w)).
Proof.
  intros Hset Hint. run_write. rewrite Hset. run_write. rewrite Hint.
  destruct w; reflexivity.
Qed.

(** C2.  When the setter call raises, the write raises the same exception
    and the entity is what it was before the write. *)
Theorem write_failure_leaves_entity
    (self : InverterNumberEntity) (V : float) (w : World DevState)
    (set : Inverter -> Z -> Awaitable) (n : Z) (e : exn) (d : DevState) :
  setter (entity_description self) = Some set ->
  py_int V = Ok n ->
  respond (set (_inverter self) n) (device w) = (Raise e, d) ->
  write V (self, w) =
    (Raise e,
     (self,
      {| device := d;
         events := events w ++ [EvAwait (set (_inverter self) n)] |})).
Proof.
  intros Hset Hint Hcall. run_write.
  rewrite Hset. run_write. rewrite Hint, Hcall. reflexivity.
Qed.

(** C3, as the code has it.  A write returns exactly when the descriptor
    has no setter or its setter call returned; it has then set the cached
    value to [V] and has notified the host of that value last of all.
    A write that raises (the setter call raised, or [int(V)] did) has left
    the entity as it was and has notified nobody; when the setter call
    raises, the write raises the same, and the call is all that
    happened. *)
Theorem write_updates_when_it_returns
    (self self' : InverterNumberEntity) (V : float) (w w' : World DevState)
    (r : result unit) :
  write V (self, w) = (r, (self', w')) ->
  match r with
  | Ok _ =>
      (setter (entity_description self) = None \/
       exists set n answer,
         setter (entity_description self) = Some set /\
         py_int V = Ok n /\
         fst (respond (set (_inverter self) n) (device w)) = Ok answer) /\
      _attr_native_value self' = V /\
      self' = with_native_value self V /\
      exists before : list event,
        events w' = before ++ [EvWriteHAState (_attr_unique_id self) V]
  | Raise e =>
      (exists set,
         setter (entity_description self) = Some set /\
         (py_int V = Raise e \/
          exists n,
            py_int V = Ok n /\
            fst (respond (set (_inverter self) n) (device w)) = Raise e)) /\
      self' = self /\
      _attr_native_value self' = _attr_native_value self /\
      exists new : list event,
        events w' = events w ++ new /\
        Forall (fun ev => is_write_ha_state ev = false) new
  end /\
  (forall set n e d,
     setter (entity_description self) = Some set ->
     py_int V = Ok n ->
     respond (set (_inverter self) n) (device w) = (Raise e, d) ->
     r = Raise e /\ self' = self /\
     events w' = events w ++ [EvAwait (set (_inverter self) n)]).
Proof.
  run_write. destruct (setter (entity_description self)) as [set|]; run_write.
  - destruct (py_int V) as [n|e]; simpl.
    + destruct (respond _ _) as [[answer|e] d] eqn:Hcall; simpl;
        intros [= <- <- <-]; simpl.
      * split.
        -- split; [right; exists set, n, answer; rewrite Hcall; auto|].
           repeat split. rewrite <- app_assoc.
           exists (events w ++ [EvAwait (set (_inverter self) n)]).
           rewrite <- app_assoc. reflexivity.
        -- intros set' n' e' d' [= <-] [= <-]. rewrite Hcall. discriminate.
      * split.
        -- split; [exists set; split; [reflexivity|]; right; exists n;
                   rewrite Hcall; auto|].
           repeat split. exists [EvAwait (set (_inverter self) n)].
           split; [reflexivity|]. repeat constructor.
        -- intros set' n' e' d' [= <-] [= <-]. rewrite Hcall.
           intros [= <- <-]. auto.
    + intros [= <- <- <-]. split.
      * split; [exists set; auto|]. repeat split.
        exists []. rewrite app_nil_r. split; [reflexivity|constructor].
      * intros set' n' e' d' _ [=].
  - intros [= <- <- <-]; simpl. split.
    + split; [left; reflexivity|]. repeat split. eauto.
    + intros set' n' e' d' [=].
Qed.

(** C6.  A write of [V] to an entity whose descriptor has no setter awaits
    nothing and leaves the inverter as it was; the cached value becomes
    [V] and the host is notified. *)
Theorem write_without_setter_is_local
    (self : InverterNumberEntity) (V : float) (w : World DevState) :
  setter (entity_description self) = None ->
  write V (self, w) =
    (Ok tt,
     (with_native_value self V,
      {| device := device w;
         events := events w ++ [EvWriteHAState (_attr_unique_id self) V] |})).
Proof.
  intros Hset. run_write. rewrite Hset. reflexivity.
Qed.

(** C10.  A write that raises has not notified the host: all it added to
    the log is the setter call, if it got that far.  A write that returns
    notifies once, after the setter call (if any) and with the cached
    value already updated. *)
Theorem write_notifies_only_at_the_end
    (self self' : InverterNumberEntity) (V : float) (w w' : World DevState)
    (r : result unit) :
  write V (self, w) = (r, (self', w')) ->
  exists calls : list event,
    Forall (fun ev => is_await ev = true) calls /\
    (length calls <= 1)%nat /\
    match r with
    | Raise _ =>
        events w' = events w ++ calls /\ self' = self
    | Ok _ =>
        events w' =
          events w ++ calls ++ [EvWriteHAState (_attr_unique_id self') V] /\
        _attr_native_value self' = V
    end.
Proof.
  run_write. destruct (setter (entity_description self)) as [set|]; run_write.
  - destruct (py_int V) as [n|e]; simpl.
    + destruct (respond _ _) as [[answer|e] d]; simpl;
        intros [= <- <- <-]; simpl;
        exists [EvAwait (set (_inverter self) n)];
        (split; [repeat constructor|]); (split; [simpl; lia|]).
      * rewrite <- app_assoc. split; reflexivity.
      * split; reflexivity.
    + intros [= <- <- <-]. exists []. simpl.
      rewrite app_nil_r. repeat split; auto.
  - intros [= <- <- <-]; simpl. exists []. simpl.
    repeat split; auto.
Qed.

End Writes.

(** ** The descriptors *)

Lemma eco_mode_mappers_on_reading (v : pyobj) (p s : Z) :
  py_bool v = true ->
  getattr v "power" = Ok (PyInt p) ->
  getattr v "soc" = Ok (PyInt s) ->
  forall power soc,
    NUMBERS !! 3%nat = Some power -> NUMBERS !! 4%nat = Some soc ->
    mapper power v = Ok (PyInt (Z.abs p)) /\ mapper soc v = Ok (PyInt s).
Proof.
  intros Hv Hp Hs power soc [= <-] [= <-]. simpl.
  rewrite Hv, Hp, Hs. split; reflexivity.
Qed.

Lemma eco_mode_mappers_on_nothing (v : pyobj) :
  py_bool v = false ->
  forall power soc,
    NUMBERS !! 3%nat = Some power -> NUMBERS !! 4%nat = Some soc ->
    mapper power v = Ok (PyInt 0) /\ mapper soc v = Ok (PyInt 0).
Proof.
  intros Hv power soc [= <-] [= <-]. simpl. rewrite Hv. split; reflexivity.
Qed.

(** C7.  On an eco-mode reading with [power = -450] and [soc = 20] the
    mapper of [eco_mode_power] gives 450 and that of [eco_mode_soc] gives
    20; on [None] both give 0. *)
Theorem eco_mode_mappers :
  exists power soc,
    NUMBERS !! 3%nat = Some power /\ key power = "eco_mode_power" /\
    NUMBERS !! 4%nat = Some soc /\ key soc = "eco_mode_soc" /\
    let reading := PyObject [("power", PyInt (-450)); ("soc", PyInt 20)] in
    mapper power reading = Ok (PyInt 450) /\
    mapper soc reading = Ok (PyInt 20) /\
    mapper power PyNone = Ok (PyInt 0) /\
    mapper soc PyNone = Ok (PyInt 0).
Proof.
  do 2 eexists. repeat split; reflexivity.
Qed.

Lemma eqb_DT (inv : Inverter) :
  String.eqb (type_name inv) "DT" = bool_decide (type_name inv = "DT").
Proof.
  destruct (String.eqb_spec (type_name inv) "DT") as [H|H].
  - symmetry. apply bool_decide_eq_true_2, H.
  - symmetry. apply bool_decide_eq_false_2, H.
Qed.

(** What the filters let through, by model. *)
Lemma selected_DT (inv : Inverter) :
  type_name inv = "DT" ->
  List.filter (fun dsc => filter dsc inv) NUMBERS = drop 1 NUMBERS.
Proof.
  intros H. simpl. rewrite H. reflexivity.
Qed.

Lemma selected_other (inv : Inverter) :
  type_name inv <> "DT" ->
  List.filter (fun dsc => filter dsc inv) NUMBERS = take 1 NUMBERS ++ drop 2 NUMBERS.
Proof.
  intros H. simpl. rewrite eqb_DT, bool_decide_eq_false_2 by exact H.
  reflexivity.
Qed.

(** C8.  The two [grid_export_limit] descriptors are the watt-based one
    (0 to 10000 by 100) and the percentage-based one (0 to 100 by 1).  On
    an inverter of model "DT" the filters accept the percentage-based one
    and reject the watt-based one; on any other model it is the other way
    round. *)
Theorem export_limit_by_model (inv : Inverter) :
  exists watts percent,
    NUMBERS !! 0%nat = Some watts /\ NUMBERS !! 1%nat = Some percent /\
    key watts = "grid_export_limit" /\ key percent = "grid_export_limit" /\
    native_unit_of_measurement watts = WATT /\
    (native_min_value watts, native_max_value watts, native_step watts)
      = (0, 10000, 100)%Z /\
    native_unit_of_measurement percent = PERCENTAGE /\
    (native_min_value percent, native_max_value percent, native_step percent)
      = (0, 100, 1)%Z /\
    (type_name inv = "DT" ->
       filter percent inv = true /\ filter watts inv = false /\
       List.filter (fun dsc => filter dsc inv) NUMBERS = percent :: drop 2 NUMBERS) /\
    (type_name inv <> "DT" ->
       filter watts inv = true /\ filter percent inv = false /\
       List.filter (fun dsc => filter dsc inv) NUMBERS = watts :: drop 2 NUMBERS).
Proof.
  do 2 eexists. repeat (split; [reflexivity|]). split.
  - intros H. rewrite selected_DT by exact H. simpl. rewrite H. auto.
  - intros H. rewrite selected_other by exact H. simpl.
    rewrite eqb_DT, bool_decide_eq_false_2 by exact H. auto.
Qed.

(** ** Strings and lists *)

Lemma length_append (s t : string) :
  String.length (s ++ t)%string = (String.length s + String.length t)%nat.
Proof.
  induction s as [|c s IH]; simpl; [reflexivity|]. rewrite IH. reflexivity.
Qed.

Lemma append_inv_tail (t s1 s2 : string) :
  (s1 ++ t = s2 ++ t)%string -> s1 = s2.
Proof.
  revert s2. induction s1 as [|c s1 IH]; intros [|c' s2] H; simpl in H.
  - reflexivity.
  - apply (f_equal String.length) in H.
    rewrite ?length_append in H. simpl in H. rewrite ?length_append in H. lia.
  - apply (f_equal String.length) in H.
    rewrite ?length_append in H. simpl in H. rewrite ?length_append in H. lia.
  - injection H as -> H. f_equal. apply IH, H.
Qed.

Lemma unique_id_inj (domain serial k1 k2 : string) :
  (domain ++ "-" ++ k1 ++ "-" ++ serial = domain ++ "-" ++ k2 ++ "-" ++ serial)%string ->
  k1 = k2.
Proof.
  intros H. apply (inj (String.app domain)) in H.
  apply (inj (String.app "-")) in H.
  apply (append_inv_tail ("-" ++ serial)).
  exact H.
Qed.

Lemma fmap_ext_elem_of {A B : Type} (f g : A -> B) (l : list A) :
  (forall x, x ∈ l -> f x = g x) -> f <$> l = g <$> l.
Proof.
  induction l as [|a l IH]; intros H; simpl; [reflexivity|].
  f_equal.
  - apply H, elem_of_cons. auto.
  - apply IH. intros x Hx. apply H, elem_of_cons. auto.
Qed.

Lemma NUMBERS_NoDup : NoDup NUMBERS.
Proof.
  unfold NUMBERS.
  repeat (apply NoDup_cons; split;
          [rewrite ?not_elem_of_cons; repeat split;
           try discriminate; apply not_elem_of_nil|]).
  apply NoDup_nil. exact I.
Qed.

(** Among the descriptors a device lets through, no key occurs twice. *)
Lemma selected_keys_NoDup (inv : Inverter) :
  NoDup (key <$> List.filter (fun dsc => filter dsc inv) NUMBERS).
Proof.
  destruct (decide (type_name inv = "DT")) as [H|H].
  - rewrite selected_DT by exact H. simpl.
    repeat (apply NoDup_cons; split;
            [rewrite ?not_elem_of_cons; repeat split;
             try discriminate; apply not_elem_of_nil|]).
    apply NoDup_nil. exact I.
  - rewrite selected_other by exact H. simpl.
    repeat (apply NoDup_cons; split;
            [rewrite ?not_elem_of_cons; repeat split;
             try discriminate; apply not_elem_of_nil|]).
    apply NoDup_nil. exact I.
Qed.

(** ** Setup *)

Section Setup.

Variable DOMAIN : string.
Context {DevState : Type}.
Variable respond : Awaitable -> DevState -> result pyobj * DevState.

Section Loop.

Variables (device_info : DeviceInfo) (inverter : Inverter).

Local Abbreviation accepts := (fun dsc => filter dsc inverter).
Local Abbreviation read := (read_current_value respond).
Local Abbreviation new_entity := (__init__ DOMAIN device_info).
Local Abbreviation loop := (for_each DOMAIN respond device_info inverter).
Local Abbreviation at_index := (world_at respond inverter).

Lemma new_entity_fields d v e :
  new_entity d inverter v = Ok e ->
  entity_description e = d /\
  _attr_unique_id e =
    (DOMAIN ++ "-" ++ key d ++ "-" ++ serial_number inverter)%string /\
  _attr_device_info e = device_info /\
  _inverter e = inverter /\
  py_float v = Ok (_attr_native_value e).
Proof.
  unfold __init__. destruct (py_float v) as [x|x]; [|discriminate].
  intros [= <-]. simpl. auto.
Qed.

(** One turn of the loop, by what the read yields. *)
Lemma loop_body_run d acc w :
  loop_body DOMAIN respond device_info inverter d acc w =
    match read d inverter w with
    | (Ok v, w1) =>
        match new_entity d inverter v with
        | Ok e => (Ok (acc ++ [e]), w1)
        | Raise x => (Raise x, w1)
        end
    | (Raise x, w1) =>
        if caught x
        then (Ok acc, snd (emit (EvLogDebug (key d)) w1))
        else (Raise x, w1)
    end.
Proof.
  unfold loop_body, try_except, bind, lift, ret. simpl.
  destruct (read d inverter w) as [[v|x] w1]; simpl.
  - destruct (new_entity d inverter v); reflexivity.
  - destruct (caught x); reflexivity.
Qed.

Lemma loop_selected_cons d ds acc w :
  loop (List.filter accepts (d :: ds)) acc w =
    if filter d inverter
    then bind (loop_body DOMAIN respond device_info inverter d acc)
              (loop (List.filter accepts ds)) w
    else loop (List.filter accepts ds) acc w.
Proof.
  simpl. destruct (filter d inverter); reflexivity.
Qed.

Lemma world_at_0 ds w : at_index ds w 0 = w.
Proof. destruct ds; reflexivity. Qed.

Lemma world_at_S d ds w i :
  at_index (d :: ds) w (S i) = at_index ds (world_after respond inverter d w) i.
Proof. reflexivity. Qed.

(** What a completed loop has appended to [entities], and where it has
    left the world. *)
Lemma loop_outcome ds : forall acc w ents w',
  loop (List.filter accepts ds) acc w = (Ok ents, w') ->
  exists news,
    ents = acc ++ news /\
    w' = at_index ds w (length ds) /\
    entity_description <$> news `sublist_of` List.filter accepts ds /\
    (forall e, e ∈ news ->
       exists i d v,
         ds !! i = Some d /\ filter d inverter = true /\
         fst (read d inverter (at_index ds w i)) = Ok v /\
         new_entity d inverter v = Ok e) /\
    (forall i d v,
       ds !! i = Some d -> filter d inverter = true ->
       fst (read d inverter (at_index ds w i)) = Ok v ->
       exists e, new_entity d inverter v = Ok e /\ e ∈ news).
Proof.
  induction ds as [|d ds IH]; intros acc w ents w'.
  - simpl. intros [= <- <-]. exists []. rewrite app_nil_r.
    repeat split; auto.
    + intros e He. inversion He.
    + intros i d v Hi. destruct i; discriminate.
  - rewrite loop_selected_cons.
    assert (Hshift : forall (news : list InverterNumberEntity),
      (forall e, e ∈ news ->
         exists i d' v,
           ds !! i = Some d' /\ filter d' inverter = true /\
           fst (read d' inverter
                  (at_index ds (world_after respond inverter d w) i)) = Ok v /\
           new_entity d' inverter v = Ok e) ->
      forall e, e ∈ news ->
        exists i d' v,
          (d :: ds) !! i = Some d' /\ filter d' inverter = true /\
          fst (read d' inverter (at_index (d :: ds) w i)) = Ok v /\
          new_entity d' inverter v = Ok e).
    { intros news Hin e He.
      destruct (Hin e He) as (i & d' & v & ? & ? & ? & ?).
      exists (S i), d', v. rewrite world_at_S. auto. }
    destruct (filter d inverter) eqn:Hf.
    + unfold bind. rewrite loop_body_run.
      destruct (read d inverter w) as [[v|x] w1] eqn:Hread.
      * destruct (new_entity d inverter v) as [e|x] eqn:Hnew; [|discriminate].
        assert (Hw : world_after respond inverter d w = w1)
          by (unfold world_after; rewrite Hf, Hread; reflexivity).
        subst w1. intros Hrest.
        apply IH in Hrest as (news & -> & -> & Hsub & Hin & Hall).
        exists (e :: news). rewrite <- app_assoc.
        split; [reflexivity|]. split; [reflexivity|]. split; [|split].
        -- simpl. rewrite Hf.
           apply new_entity_fields in Hnew as (<- & _).
           apply sublist_skip, Hsub.
        -- intros e' [->|He']%elem_of_cons.
           ++ exists 0%nat, d, v. rewrite world_at_0, Hread. auto.
           ++ apply (Hshift news Hin e' He').
        -- intros [|i] d' v'.
           ++ simpl. intros [= <-] _. rewrite Hread. intros [= <-].
              exists e. split; [exact Hnew|]. apply elem_of_cons. auto.
           ++ rewrite world_at_S. simpl. intros Hi Hf' Hv.
              destruct (Hall i d' v' Hi Hf' Hv) as (e' & ? & ?).
              exists e'. split; [assumption|]. apply elem_of_cons. auto.
      * destruct (caught x) eqn:Hx; [|discriminate].
        assert (Hw : world_after respond inverter d w =
                     snd (emit (EvLogDebug (key d)) w1))
          by (unfold world_after; rewrite Hf, Hread, Hx; reflexivity).
        rewrite <- Hw. intros Hrest.
        apply IH in Hrest as (news & -> & -> & Hsub & Hin & Hall).
        exists news.
        split; [reflexivity|]. split; [reflexivity|]. split; [|split].
        -- simpl. rewrite Hf. apply sublist_cons, Hsub.
        -- apply (Hshift news Hin).
        -- intros [|i] d' v'.
           ++ simpl. intros [= <-] _. rewrite Hread. discriminate.
           ++ rewrite world_at_S. simpl. apply Hall.
    + assert (Hw : world_after respond inverter d w = w)
        by (unfold world_after; rewrite Hf; reflexivity).
      intros Hrest.
      apply IH in Hrest as (news & -> & -> & Hsub & Hin & Hall).
      exists news.
      split; [reflexivity|]. split; [simpl; rewrite Hw; reflexivity|].
      split; [|split].
      * simpl. rewrite Hf. exact Hsub.
      * rewrite <- Hw in Hin. apply (Hshift news Hin).
      * intros [|i] d' v'.
        -- simpl. intros [= <-] Hf'. congruence.
        -- rewrite world_at_S, Hw. simpl. apply Hall.
Qed.

Lemma for_each_app l1 l2 acc w :
  loop (l1 ++ l2) acc w = bind (loop l1 acc) (loop l2) w.
Proof.
  revert acc w. induction l1 as [|d l1 IH]; intros acc w.
  - reflexivity.
  - simpl. unfold bind in *.
    destruct (loop_body DOMAIN respond device_info inverter d acc w)
      as [[acc1|x] w1]; [apply IH|reflexivity].
Qed.

(** A read raises when the awaited getter raises or when the mapper
    rejects what the getter returned. *)
Lemma read_raises_iff d w x w1 :
  read d inverter w = (Raise x, w1) <->
  w1 = {| device := snd (respond (getter d inverter) (device w));
          events := events w ++ [EvAwait (getter d inverter)] |} /\
  (fst (respond (getter d inverter) (device w)) = Raise x \/
   exists raw,
     fst (respond (getter d inverter) (device w)) = Ok raw /\
     mapper d raw = Raise x).
Proof.
  unfold read_current_value, bind, await, lift.
  destruct (respond (getter d inverter) (device w)) as [[raw|y] dev]; simpl.
  - split.
    + intros [= Hm <-]. split; [reflexivity|]. right. eauto.
    + intros [-> [[=]|(raw' & [= <-] & ->)]]. reflexivity.
  - split.
    + intros [= -> <-]. auto.
    + intros [-> [[= ->]|(raw' & [=] & _)]]. reflexivity.
Qed.


(** The loop only awaits getters and logs. *)
Lemma world_after_events d w :
  exists reads,
    events (world_after respond inverter d w) = events w ++ reads /\
    Forall (fun ev => is_add_entities ev = false) reads.
Proof.
  unfold world_after. destruct (filter d inverter).
  - unfold read_current_value, bind, await, lift.
    destruct (respond (getter d inverter) (device w)) as [[raw|y] dev]; simpl.
    + destruct (mapper d raw) as [v|y]; simpl.
      * exists [EvAwait (getter d inverter)]. split; [reflexivity|].
        repeat constructor.
      * destruct (caught y); simpl.
        -- exists [EvAwait (getter d inverter); EvLogDebug (key d)].
           rewrite <- app_assoc. split; [reflexivity|]. repeat constructor.
        -- exists [EvAwait (getter d inverter)]. split; [reflexivity|].
           repeat constructor.
    + destruct (caught y); simpl.
      * exists [EvAwait (getter d inverter); EvLogDebug (key d)].
        rewrite <- app_assoc. split; [reflexivity|]. repeat constructor.
      * exists [EvAwait (getter d inverter)]. split; [reflexivity|].
        repeat constructor.
  - exists []. rewrite app_nil_r. split; [reflexivity|constructor].
Qed.

Lemma world_at_events ds : forall w i,
  exists reads,
    events (at_index ds w i) = events w ++ reads /\
    Forall (fun ev => is_add_entities ev = false) reads.
Proof.
  induction ds as [|d ds IH]; intros w i.
  - exists []. rewrite app_nil_r. destruct i; split; auto.
  - destruct i as [|i].
    + exists []. rewrite app_nil_r. split; auto.
    + rewrite world_at_S.
      destruct (IH (world_after respond inverter d w) i) as (l2 & -> & H2).
      destruct (world_after_events d w) as (l1 & -> & H1).
      exists (l1 ++ l2). rewrite <- app_assoc. split; [reflexivity|].
      apply Forall_app. auto.
Qed.

End Loop.

(** What a completed setup has looked up and run. *)
Lemma setup_with_completes ds hass config_entry w w' :
  setup_with DOMAIN respond ds hass config_entry w = (Ok tt, w') ->
  exists entry inverter device_info entities w1,
    (data hass !! DOMAIN) ≫= (fun d => d !! entry_id config_entry) = Some entry /\
    at_KEY_INVERTER entry = Some inverter /\
    at_KEY_DEVICE_INFO entry = Some device_info /\
    for_each DOMAIN respond device_info inverter
      (List.filter (fun dsc => filter dsc inverter) ds) [] w
      = (Ok entities, w1) /\
    w' = {| device := device w1;
            events := events w1 ++ [EvAddEntities entities] |}.
Proof.
  unfold setup_with, getitem, entry_item, emit, bind, ret, raise.
  destruct (data hass !! DOMAIN) as [domain_data|]; simpl; [|discriminate].
  destruct (domain_data !! entry_id config_entry) as [entry|]; simpl;
    [|discriminate].
  destruct (at_KEY_INVERTER entry) as [inverter|] eqn:Hinv; simpl;
    [|discriminate].
  destruct (at_KEY_DEVICE_INFO entry) as [device_info|] eqn:Hinfo; simpl;
    [|discriminate].
  destruct (for_each _ _ _ _ _ _ _) as [[entities|x] w1] eqn:Hloop;
    [|discriminate].
  intros [= <-]. exists entry, inverter, device_info, entities, w1.
  repeat split; auto.
Qed.

(** The entities of a completed setup over any tuple without repeated
    descriptors. *)
Lemma setup_with_registers ds hass config_entry w w' :
  NoDup ds ->
  setup_with DOMAIN respond ds hass config_entry w = (Ok tt, w') ->
  exists entry inverter device_info entities,
    ((data hass !! DOMAIN) ≫= (fun d => d !! entry_id config_entry) = Some entry /\
     at_KEY_INVERTER entry = Some inverter /\
     at_KEY_DEVICE_INFO entry = Some device_info) /\
    (exists reads,
       events w' = events w ++ reads ++ [EvAddEntities entities] /\
       Forall (fun ev => is_add_entities ev = false) reads) /\
    (forall i description,
       ds !! i = Some description ->
       (exists e, e ∈ entities /\ entity_description e = description) <->
       filter description inverter = true /\
       read_succeeds_at respond inverter ds w i description) /\
    (forall e, e ∈ entities ->
       exists v,
         __init__ DOMAIN device_info (entity_description e) inverter v = Ok e) /\
    entity_description <$> entities
      `sublist_of` List.filter (fun dsc => filter dsc inverter) ds.
Proof.
  intros Hnodup Hrun.
  apply setup_with_completes in Hrun
    as (entry & inverter & device_info & entities & w1
        & Hentry & Hinv & Hinfo & Hloop & ->).
  apply loop_outcome in Hloop as (news & -> & -> & Hsub & Hin & Hall).
  exists entry, inverter, device_info, news. simpl.
  split; [auto|]. split; [|split; [|split]].
  - destruct (world_at_events inverter ds w (length ds)) as (reads & -> & Hreads).
    exists reads. rewrite <- app_assoc. auto.
  - intros i description Hi. unfold read_succeeds_at. split.
    + intros (e & He & Hdescr).
      apply Hin in He as (j & d & v & Hj & Hf & Hv & Hnew).
      apply new_entity_fields in Hnew as (Hd & _).
      rewrite Hdescr in Hd. subst d.
      assert (i = j) by (eapply NoDup_lookup; eassumption). subst j.
      eauto.
    + intros (Hf & v & Hv).
      destruct (Hall i description v Hi Hf Hv) as (e & Hnew & He).
      exists e. split; [exact He|].
      apply new_entity_fields in Hnew as (Hd & _). exact Hd.
  - intros e He. apply Hin in He as (j & d & v & _ & _ & _ & Hnew).
    exists v. pose proof Hnew as Hnew'.
    apply new_entity_fields in Hnew' as (-> & _). exact Hnew.
  - exact Hsub.
Qed.

(** C4.  When [async_setup_entry] has completed, it has handed the host
    one batch of entities, and a descriptor of [NUMBERS] has an entity in
    that batch exactly when its filter accepted the inverter and its
    getter and mapper went through when the loop got to it; every entity
    of the batch is the outcome of the constructor. *)
Theorem setup_registers_exactly hass config_entry w w' :
  async_setup_entry DOMAIN respond hass config_entry w = (Ok tt, w') ->
  exists entry inverter device_info entities,
    ((data hass !! DOMAIN) ≫= (fun d => d !! entry_id config_entry) = Some entry /\
     at_KEY_INVERTER entry = Some inverter /\
     at_KEY_DEVICE_INFO entry = Some device_info) /\
    (exists reads,
       events w' = events w ++ reads ++ [EvAddEntities entities] /\
       Forall (fun ev => is_add_entities ev = false) reads) /\
    (forall i description,
       NUMBERS !! i = Some description ->
       (exists e, e ∈ entities /\ entity_description e = description) <->
       filter description inverter = true /\
       read_succeeds_at respond inverter NUMBERS w i description) /\
    (forall description,
       description ∈ NUMBERS -> filter description inverter = false ->
       forall e, e ∈ entities -> entity_description e <> description) /\
    (forall e, e ∈ entities ->
       exists v,
         __init__ DOMAIN device_info (entity_description e) inverter v = Ok e).
Proof.
  intros Hrun.
  apply (setup_with_registers NUMBERS) in Hrun
    as (entry & inverter & device_info & entities
        & Hlook & Hev & Hiff & Hinit & _); [|apply NUMBERS_NoDup].
  exists entry, inverter, device_info, entities.
  repeat (split; [assumption|]). split; [|assumption].
  intros description [i Hi]%list_elem_of_lookup Hf e He Hdescr.
  destruct (Hiff i description Hi) as [Hto _].
  destruct Hto as [Hf' _]; [eauto|]. congruence.
Qed.

(** C9.  Every entity of the batch has the identifier
    [DOMAIN-key-serial_number]; no two entities of the batch have the same
    key, and no two have the same identifier. *)
Theorem setup_unique_ids hass config_entry w w' :
  async_setup_entry DOMAIN respond hass config_entry w = (Ok tt, w') ->
  exists entry inverter entities,
    ((data hass !! DOMAIN) ≫= (fun d => d !! entry_id config_entry) = Some entry /\
     at_KEY_INVERTER entry = Some inverter) /\
    (exists before, events w' = before ++ [EvAddEntities entities]) /\
    (forall e, e ∈ entities ->
       _attr_unique_id e =
         (DOMAIN ++ "-" ++ key (entity_description e) ++ "-"
            ++ serial_number inverter)%string) /\
    NoDup (key <$> (entity_description <$> entities)) /\
    NoDup (_attr_unique_id <$> entities).
Proof.
  intros Hrun.
  apply (setup_with_registers NUMBERS) in Hrun
    as (entry & inverter & device_info & entities
        & (Hentry & Hinv & _) & (reads & Hev & _) & _ & Hinit & Hsub);
    [|apply NUMBERS_NoDup].
  exists entry, inverter, entities.
  assert (Hid : forall e, e ∈ entities ->
            _attr_unique_id e =
              (DOMAIN ++ "-" ++ key (entity_description e) ++ "-"
                 ++ serial_number inverter)%string).
  { intros e He. destruct (Hinit e He) as (v & Hnew).
    apply new_entity_fields in Hnew as (_ & Hid & _). exact Hid. }
  assert (Hkeys : NoDup (key <$> (entity_description <$> entities))).
  { eapply sublist_NoDup; [apply (selected_keys_NoDup inverter)|].
    apply fmap_sublist, Hsub. }
  split; [auto|]. split; [|split; [exact Hid|split; [exact Hkeys|]]].
  - exists (events w ++ reads). rewrite Hev, app_assoc. reflexivity.
  - rewrite (fmap_ext_elem_of _attr_unique_id
      ((fun k => DOMAIN ++ "-" ++ k ++ "-" ++ serial_number inverter)%string
         ∘ (key ∘ entity_description))) by exact Hid.
    rewrite list_fmap_compose, list_fmap_compose.
    apply NoDup_fmap_2_strong; [|exact Hkeys].
    intros k1 k2 _ _ H. eapply unique_id_inj, H.
Qed.

End Setup.

(** ** Runs on the demo inverter *)

(** A write of 42.75 to the percentage export limit of the DT inverter
    sets the limit to 42; a write of NaN raises and sets nothing. *)
Lemma write_calls_setter_once_witness :
  setter (entity_description (Demo.entity_of 1 Demo.dt Demo.f5000))
    = Some (fun inv val => set_grid_export_limit inv val) /\
  py_int Demo.f42_75 = Ok 42%Z /\
  async_set_native_value Demo.respond Demo.f42_75
    (Demo.entity_of 1 Demo.dt Demo.f5000, Demo.world0) =
    (Ok tt,
     (Demo.entity_of 1 Demo.dt Demo.f42_75,
      {| device := {| Demo.reachable := true; Demo.limit := 42; Demo.dod := None |};
         events := [EvAwait (set_grid_export_limit Demo.dt 42);
                    EvWriteHAState "goodwe-grid_export_limit-6050KDTU"
                      Demo.f42_75] |})) /\
  async_set_native_value Demo.respond S754_nan
    (Demo.entity_of 1 Demo.dt Demo.f5000, Demo.world0) =
    (Raise ValueError, (Demo.entity_of 1 Demo.dt Demo.f5000, Demo.world0)).
Proof.
  split; [reflexivity|]. split; [reflexivity|].
  destruct (write_calls_setter_once Demo.respond
              (Demo.entity_of 1 Demo.dt Demo.f5000) Demo.f42_75 Demo.world0
              (fun inv val => set_grid_export_limit inv val) eq_refl)
    as (Hreturns & _ & _ & _).
  destruct (write_calls_setter_once Demo.respond
              (Demo.entity_of 1 Demo.dt Demo.f5000) S754_nan Demo.world0
              (fun inv val => set_grid_export_limit inv val) eq_refl)
    as (_ & _ & Hnan & _).
  split.
  - exact (Hreturns 42%Z PyNone
             {| Demo.reachable := true; Demo.limit := 42; Demo.dod := None |}
             eq_refl eq_refl).
  - exact (Hnan ValueError eq_refl).
Defined.

(** C1 as stated fails: a write of NaN to an entity with a setter raises
    before the setter is called, so there is no setter call at all. *)
Lemma write_nan_calls_no_setter :
  ~ (forall (self : InverterNumberEntity) (V : float) (w : World Demo.State)
            (set : Inverter -> Z -> Awaitable),
       setter (entity_description self) = Some set ->
       exists n : Z,
         awaited
           (events (snd (snd (async_set_native_value Demo.respond V (self, w)))))
         = awaited (events w) ++ [set (_inverter self) n]).
Proof.
  intros H.
  destruct (H (Demo.entity_of 0 Demo.et Demo.f5000) S754_nan Demo.world0
              (fun inv val => set_grid_export_limit inv val) eq_refl)
    as [n Hn].
  vm_compute in Hn. discriminate Hn.
Qed.

(** A write of 2500.0 while the inverter is out of reach raises and
    leaves the entity at 5000.0. *)
Lemma write_failure_leaves_entity_witness :
  setter (entity_description (Demo.entity_of 0 Demo.et Demo.f5000))
    = Some (fun inv val => set_grid_export_limit inv val) /\
  py_int Demo.f2500 = Ok 2500%Z /\
  Demo.respond (set_grid_export_limit Demo.et 2500) (device Demo.offline)
    = (Raise InverterError, device Demo.offline) /\
  async_set_native_value Demo.respond Demo.f2500
    (Demo.entity_of 0 Demo.et Demo.f5000, Demo.offline) =
    (Raise InverterError,
     (Demo.entity_of 0 Demo.et Demo.f5000,
      {| device := device Demo.offline;
         events := [EvAwait (set_grid_export_limit Demo.et 2500)] |})).
Proof.
  split; [reflexivity|]. split; [reflexivity|]. split; [reflexivity|].
  exact (write_failure_leaves_entity Demo.respond
           (Demo.entity_of 0 Demo.et Demo.f5000) Demo.f2500 Demo.offline
           (fun inv val => set_grid_export_limit inv val) 2500 InverterError
           (device Demo.offline) eq_refl eq_refl eq_refl).
Defined.

(** C3 as stated fails: after the write above the cached value is still
    5000.0, not the requested 2500.0, and the host has heard nothing. *)
Lemma write_not_unconditional :
  ~ (forall (self : InverterNumberEntity) (V : float) (w : World Demo.State),
       _attr_native_value
         (fst (snd (async_set_native_value Demo.respond V (self, w)))) = V /\
       exists before,
         events (snd (snd (async_set_native_value Demo.respond V (self, w))))
           = before ++ [EvWriteHAState (_attr_unique_id self) V]).
Proof.
  intros H.
  destruct (H (Demo.entity_of 0 Demo.et Demo.f5000) Demo.f2500 Demo.offline)
    as [Hvalue _].
  vm_compute in Hvalue. discriminate Hvalue.
Qed.

(** The same write with the inverter in reach goes through; out of reach
    it leaves the entity at 5000.0 and the host unnotified. *)
Lemma write_updates_when_it_returns_witness :
  async_set_native_value Demo.respond Demo.f2500
    (Demo.entity_of 0 Demo.et Demo.f5000, Demo.world0) =
    (Ok tt,
     (Demo.entity_of 0 Demo.et Demo.f2500,
      {| device := {| Demo.reachable := true; Demo.limit := 2500; Demo.dod := None |};
         events := [EvAwait (set_grid_export_limit Demo.et 2500);
                    EvWriteHAState "goodwe-grid_export_limit-95027EST"
                      Demo.f2500] |})) /\
  _attr_native_value (Demo.entity_of 0 Demo.et Demo.f2500) = Demo.f2500 /\
  Demo.entity_of 0 Demo.et Demo.f2500
    = with_native_value (Demo.entity_of 0 Demo.et Demo.f5000) Demo.f2500 /\
  (exists before,
     [EvAwait (set_grid_export_limit Demo.et 2500);
      EvWriteHAState "goodwe-grid_export_limit-95027EST" Demo.f2500]
     = before ++ [EvWriteHAState "goodwe-grid_export_limit-95027EST" Demo.f2500]) /\
  async_set_native_value Demo.respond Demo.f2500
    (Demo.entity_of 0 Demo.et Demo.f5000, Demo.offline) =
    (Raise InverterError,
     (Demo.entity_of 0 Demo.et Demo.f5000,
      {| device := device Demo.offline;
         events := [EvAwait (set_grid_export_limit Demo.et 2500)] |})) /\
  (exists new : list event,
     [EvAwait (set_grid_export_limit Demo.et 2500)]
       = events Demo.offline ++ new /\
     Forall (fun ev => is_write_ha_state ev = false) new).
Proof.
  split; [reflexivity|].
  destruct (write_updates_when_it_returns Demo.respond
              (Demo.entity_of 0 Demo.et Demo.f5000)
              (Demo.entity_of 0 Demo.et Demo.f2500) Demo.f2500 Demo.world0
              {| device := {| Demo.reachable := true; Demo.limit := 2500;
                              Demo.dod := None |};
                 events := [EvAwait (set_grid_export_limit Demo.et 2500);
                            EvWriteHAState "goodwe-grid_export_limit-95027EST"
                              Demo.f2500] |}
              (Ok tt) eq_refl)
    as ((_ & Hvalue & Hself & Hlast) & _).
  destruct (write_updates_when_it_returns Demo.respond
              (Demo.entity_of 0 Demo.et Demo.f5000)
              (Demo.entity_of 0 Demo.et Demo.f5000) Demo.f2500 Demo.offline
              {| device := device Demo.offline;
                 events := [EvAwait (set_grid_export_limit Demo.et 2500)] |}
              (Raise InverterError) eq_refl)
    as ((_ & _ & _ & Hquiet) & _).
  split; [exact Hvalue|]. split; [exact Hself|]. split; [exact Hlast|].
  split; [reflexivity|exact Hquiet].
Defined.

(** A write to the eco-mode power entity stays local, whether or not the
    inverter is in reach. *)
Lemma write_without_setter_is_local_witness :
  setter (entity_description (Demo.entity_of 3 Demo.et Demo.f5000)) = None /\
  async_set_native_value Demo.respond Demo.f42_75
    (Demo.entity_of 3 Demo.et Demo.f5000, Demo.offline) =
    (Ok tt,
     (Demo.entity_of 3 Demo.et Demo.f42_75,
      {| device := device Demo.offline;
         events := [EvWriteHAState "goodwe-eco_mode_power-95027EST"
                      Demo.f42_75] |})).
Proof.
  split; [reflexivity|].
  exact (write_without_setter_is_local Demo.respond
           (Demo.entity_of 3 Demo.et Demo.f5000) Demo.f42_75 Demo.offline
           eq_refl).
Defined.

(** The failed write has logged the setter call and no notification. *)
Lemma write_notifies_only_at_the_end_witness :
  async_set_native_value Demo.respond Demo.f2500
    (Demo.entity_of 0 Demo.et Demo.f5000, Demo.offline) =
    (Raise InverterError,
     (Demo.entity_of 0 Demo.et Demo.f5000,
      {| device := device Demo.offline;
         events := [EvAwait (set_grid_export_limit Demo.et 2500)] |})) /\
  exists calls : list event,
    Forall (fun ev => is_await ev = true) calls /\
    (length calls <= 1)%nat /\
    [EvAwait (set_grid_export_limit Demo.et 2500)] = [] ++ calls /\
    Demo.entity_of 0 Demo.et Demo.f5000 = Demo.entity_of 0 Demo.et Demo.f5000.
Proof.
  split; [reflexivity|].
  exact (write_notifies_only_at_the_end Demo.respond
           (Demo.entity_of 0 Demo.et Demo.f5000)
           (Demo.entity_of 0 Demo.et Demo.f5000) Demo.f2500 Demo.offline
           {| device := device Demo.offline;
              events := [EvAwait (set_grid_export_limit Demo.et 2500)] |}
           (Raise InverterError) eq_refl).
Defined.

(** The DT inverter gets the percentage descriptor, the ET inverter the
    watt one. *)
Lemma export_limit_by_model_witness :
  type_name Demo.dt = "DT" /\ type_name Demo.et <> "DT" /\
  List.filter (fun dsc => filter dsc Demo.dt) NUMBERS
    = Demo.descr 1 :: drop 2 NUMBERS /\
  List.filter (fun dsc => filter dsc Demo.et) NUMBERS
    = Demo.descr 0 :: drop 2 NUMBERS.
Proof.
  assert (Het : type_name Demo.et <> "DT") by discriminate.
  split; [reflexivity|]. split; [exact Het|]. split.
  - destruct (export_limit_by_model Demo.dt)
      as (watts & percent & _ & [= <-] & _ & _ & _ & _ & _ & _ & Hdt & _).
    apply (Hdt eq_refl).
  - destruct (export_limit_by_model Demo.et)
      as (watts & percent & [= <-] & _ & _ & _ & _ & _ & _ & _ & _ & Hother).
    apply (Hother Het).
Defined.


(** What the setup on the ET inverter hands to the host. *)
Example demo_setup_batch :
  async_setup_entry Demo.DOMAIN Demo.respond (Demo.hass_of Demo.et)
    Demo.config_entry Demo.world0 = (Ok tt, Demo.after_setup) /\
  last (events Demo.after_setup) =
    Some (EvAddEntities
            [Demo.entity_of 0 Demo.et Demo.f5000;
             Demo.entity_of 3 Demo.et (S754_finite false 7916483719987200 (-44));
             Demo.entity_of 4 Demo.et (S754_finite false 5629499534213120 (-48))]).
Proof.
  split; vm_compute; reflexivity.
Qed.

(** The setup on the ET inverter completes, and none of its entities is
    built from the percentage descriptor. *)
Lemma setup_registers_exactly_witness :
  async_setup_entry Demo.DOMAIN Demo.respond (Demo.hass_of Demo.et)
    Demo.config_entry Demo.world0 = (Ok tt, Demo.after_setup) /\
  exists entities,
    (exists reads,
       events Demo.after_setup
         = events Demo.world0 ++ reads ++ [EvAddEntities entities]) /\
    (forall e, e ∈ entities -> entity_description e <> Demo.descr 1).
Proof.
  assert (Hrun : async_setup_entry Demo.DOMAIN Demo.respond
                   (Demo.hass_of Demo.et) Demo.config_entry Demo.world0
                 = (Ok tt, Demo.after_setup))
    by (vm_compute; reflexivity).
  split; [exact Hrun|].
  destruct (setup_registers_exactly Demo.DOMAIN Demo.respond
              (Demo.hass_of Demo.et) Demo.config_entry Demo.world0
              Demo.after_setup Hrun)
    as (entry & inverter & device_info & entities
        & (Hentry & Hinv & _) & (reads & Hev & _) & _ & Hrejected & _).
  vm_compute in Hentry. injection Hentry as <-.
  simpl in Hinv. injection Hinv as <-.
  exists entities. split; [exists reads; exact Hev|].
  intros e He. apply Hrejected; [|reflexivity|exact He].
  apply list_elem_of_lookup. exists 1%nat. reflexivity.
Defined.

(** The identifiers of that batch are pairwise distinct. *)
Lemma setup_unique_ids_witness :
  async_setup_entry Demo.DOMAIN Demo.respond (Demo.hass_of Demo.et)
    Demo.config_entry Demo.world0 = (Ok tt, Demo.after_setup) /\
  exists entities,
    (exists before,
       events Demo.after_setup = before ++ [EvAddEntities entities]) /\
    NoDup (_attr_unique_id <$> entities).
Proof.
  assert (Hrun : async_setup_entry Demo.DOMAIN Demo.respond
                   (Demo.hass_of Demo.et) Demo.config_entry Demo.world0
                 = (Ok tt, Demo.after_setup))
    by (vm_compute; reflexivity).
  split; [exact Hrun|].
  destruct (setup_unique_ids Demo.DOMAIN Demo.respond
              (Demo.hass_of Demo.et) Demo.config_entry Demo.world0
              Demo.after_setup Hrun)
    as (entry & inverter & entities & _ & Hbatch & _ & _ & Hids).
  exists entities. split; [exact Hbatch|exact Hids].
Defined.

(** * Further properties of the setup *)

Lemma awaited_app (l1 l2 : list event) :
  awaited (l1 ++ l2) = awaited l1 ++ awaited l2.
Proof. apply omap_app. Qed.

Lemma logged_app (l1 l2 : list event) :
  logged (l1 ++ l2) = logged l1 ++ logged l2.
Proof. apply omap_app. Qed.

Section SetupRuns.

Variable DOMAIN : string.
Context {DevState : Type}.
Variable respond : Awaitable -> DevState -> result pyobj * DevState.

Section LoopRuns.

Variables (device_info : DeviceInfo) (inverter : Inverter).

Local Abbreviation read := (read_current_value respond).
Local Abbreviation new_entity := (__init__ DOMAIN device_info).
Local Abbreviation turn := (loop_body DOMAIN respond device_info inverter).
Local Abbreviation loop := (for_each DOMAIN respond device_info inverter).

(** A read awaits the getter, once, and does nothing else. *)
Lemma read_events d w r w1 :
  read d inverter w = (r, w1) ->
  events w1 = events w ++ [EvAwait (getter d inverter)] /\
  device w1 = snd (respond (getter d inverter) (device w)).
Proof.
  unfold read_current_value, bind, await, lift.
  destruct (respond (getter d inverter) (device w)) as [[raw|x] dev]; simpl.
  - intros [= _ <-]. auto.
  - intros [= _ <-]. auto.
Qed.

(** The three ways one turn of the loop can go. *)
Lemma turn_cases d acc w r w1 :
  turn d acc w = (r, w1) ->
  (exists e, r = Ok (acc ++ [e]) /\
     events w1 = events w ++ [EvAwait (getter d inverter)]) \/
  (r = Ok acc /\
     events w1 = events w ++
       [EvAwait (getter d inverter); EvLogDebug (key d)]) \/
  (exists x, r = Raise x /\
     events w1 = events w ++ [EvAwait (getter d inverter)]).
Proof.
  rewrite loop_body_run.
  destruct (read d inverter w) as [[v|x] w2] eqn:Hread;
    apply read_events in Hread as [Hev _].
  - destruct (new_entity d inverter v) as [e|x]; intros [= <- <-].
    + left. eauto.
    + right. right. eauto.
  - destruct (caught x); intros [= <- <-].
    + right. left. simpl. rewrite Hev, <- app_assoc. auto.
    + right. right. eauto.
Qed.

(** The log of a run of the loop, however it ends: the getters of the
    descriptors it got to, in order, each awaited once; debug messages;
    and one entity or one message for each descriptor when it ends
    well. *)
Lemma loop_trace ds : forall acc w r w',
  loop ds acc w = (r, w') ->
  exists (new : list event) (n : nat),
    events w' = events w ++ new /\
    (n <= length ds)%nat /\
    awaited new = (fun d => getter d inverter) <$> take n ds /\
    Forall (fun ev => is_add_entities ev = false
                      /\ is_write_ha_state ev = false) new /\
    match r with
    | Ok entities =>
        n = length ds /\
        (length entities + length (logged new) = length acc + length ds)%nat
    | Raise _ => (1 <= n)%nat
    end.
Proof.
  induction ds as [|d ds IH]; intros acc w r w'.
  - simpl. intros [= <- <-]. exists [], 0%nat. rewrite app_nil_r. simpl.
    repeat split; auto.
  - simpl. unfold bind.
    destruct (turn d acc w) as [r1 w1] eqn:Hturn.
    pose proof (turn_cases _ _ _ _ _ Hturn) as Hcases.
    destruct r1 as [acc1|x].
    + intros Hrest.
      destruct (IH _ _ _ _ Hrest) as (new & n & Hev & Hn & Haw & Hall & Hr).
      destruct Hcases as [(e & [= ->] & Hev1)|[([= ->] & Hev1)|(x & [=] & _)]].
      * exists (EvAwait (getter d inverter) :: new), (S n).
        rewrite Hev, Hev1, <- app_assoc. simpl.
        split; [reflexivity|]. split; [lia|].
        split; [unfold awaited in *; simpl; f_equal; exact Haw|].
        split; [constructor; [split; reflexivity|exact Hall]|].
        destruct r as [entities|]; [|lia].
        destruct Hr as [-> Hcount]. split; [reflexivity|].
        unfold logged in *. simpl. rewrite length_app in Hcount.
        simpl in Hcount. lia.
      * exists (EvAwait (getter d inverter) :: EvLogDebug (key d) :: new), (S n).
        rewrite Hev, Hev1, <- app_assoc. simpl.
        split; [reflexivity|]. split; [lia|].
        split; [unfold awaited in *; simpl; f_equal; exact Haw|].
        split; [repeat (constructor; [split; reflexivity|]); exact Hall|].
        destruct r as [entities|]; [|lia].
        destruct Hr as [-> Hcount]. split; [reflexivity|].
        unfold logged in *. simpl. lia.
    + intros [= <- <-].
      destruct Hcases as [(e & [=] & _)|[([=] & _)|(y & _ & Hev1)]].
      exists [EvAwait (getter d inverter)], 1%nat. simpl.
      split; [exact Hev1|]. split; [lia|].
      split; [destruct ds; reflexivity|].
      split; [repeat constructor|lia].
Qed.

(** An exception of any other class leaves the loop at once. *)
Lemma loop_aborts_on_other_error
    (before after : list GoodweNumberEntityDescription)
    (description : GoodweNumberEntityDescription)
    (entities0 entities : list InverterNumberEntity)
    (w0 w w1 : World DevState) (x : exn) :
  loop before entities0 w0 = (Ok entities, w) ->
  read description inverter w = (Raise x, w1) ->
  caught x = false ->
  loop (before ++ description :: after) entities0 w0 = (Raise x, w1).
Proof.
  intros Hbefore Hread Hx. rewrite for_each_app. unfold bind at 1.
  rewrite Hbefore. simpl. unfold bind at 1.
  rewrite loop_body_run, Hread, Hx. reflexivity.
Qed.

(** The constructor runs outside the [try]: a read value that [float]
    rejects ends the loop with that exception. *)
Lemma loop_aborts_on_bad_value
    (before after : list GoodweNumberEntityDescription)
    (description : GoodweNumberEntityDescription)
    (entities0 entities : list InverterNumberEntity)
    (w0 w w1 : World DevState) (v : pyobj) (x : exn) :
  loop before entities0 w0 = (Ok entities, w) ->
  read description inverter w = (Ok v, w1) ->
  py_float v = Raise x ->
  loop (before ++ description :: after) entities0 w0 = (Raise x, w1).
Proof.
  intros Hbefore Hread Hfloat. rewrite for_each_app. unfold bind at 1.
  rewrite Hbefore. simpl. unfold bind at 1.
  rewrite loop_body_run, Hread. unfold __init__. rewrite Hfloat. reflexivity.
Qed.

(** While every request fails with an error the loop catches, the loop
    runs to its end and appends nothing. *)
Lemma loop_all_skipped (P : DevState -> Prop) :
  (forall call st, P st ->
     exists x st', respond call st = (Raise x, st') /\ caught x = true /\ P st') ->
  forall ds acc w, P (device w) ->
    exists w', loop ds acc w = (Ok acc, w') /\ P (device w').
Proof.
  intros Hfail. induction ds as [|d ds IH]; intros acc w Hw.
  - exists w. split; [reflexivity|exact Hw].
  - destruct (Hfail (getter d inverter) (device w) Hw) as (x & st' & Hr & Hx & Hst').
    simpl. unfold bind. rewrite loop_body_run.
    unfold read_current_value, bind, await, lift. rewrite Hr. simpl.
    rewrite Hx. apply IH. exact Hst'.
Qed.

(** While every read of a descriptor of the list returns a number, the
    loop runs to its end and appends one entity for each. *)
Lemma loop_all_created (P : DevState -> Prop) ds :
  (forall d st, d ∈ ds -> P st ->
     exists raw st' v f,
       respond (getter d inverter) st = (Ok raw, st') /\
       mapper d raw = Ok v /\ py_float v = Ok f /\ P st') ->
  forall acc w, P (device w) ->
    exists news w',
      loop ds acc w = (Ok (acc ++ news), w') /\
      entity_description <$> news = ds /\ P (device w').
Proof.
  induction ds as [|d ds IH]; intros Hgood acc w Hw.
  - exists [], w. rewrite app_nil_r. auto.
  - destruct (Hgood d (device w)) as (raw & st' & v & f & Hr & Hm & Hf & Hst');
      [apply elem_of_cons; auto|exact Hw|].
    simpl. unfold bind. rewrite loop_body_run.
    unfold read_current_value, bind, await, lift. rewrite Hr. simpl.
    rewrite Hm. unfold __init__. rewrite Hf.
    set (e := {| entity_description := d;
                 _attr_unique_id :=
                   (DOMAIN ++ "-" ++ key d ++ "-" ++ serial_number inverter)%string;
                 _attr_device_info := device_info;
                 _attr_native_value := f;
                 _inverter := inverter |}).
    set (w1 := {| device := st';
                  events := events w ++ [EvAwait (getter d inverter)] |}).
    destruct (IH (fun d' st Hd' => Hgood d' st (proj2 (elem_of_cons _ _ _) (or_intror Hd')))
                 (acc ++ [e]) w1 Hst')
      as (news & w' & Hloop & Hdescr & Hw').
    exists (e :: news), w'. rewrite Hloop, <- app_assoc.
    split; [reflexivity|]. split; [|exact Hw'].
    rewrite fmap_cons, Hdescr. reflexivity.
Qed.

End LoopRuns.

Local Abbreviation selected inverter :=
  (List.filter (fun dsc => filter dsc inverter) NUMBERS).

(** The setup, by what the lookups find. *)
Lemma setup_with_unfold ds hass config_entry w :
  setup_with DOMAIN respond ds hass config_entry w =
    match entry_of DOMAIN hass config_entry with
    | None => (Raise KeyError, w)
    | Some entry =>
        match at_KEY_INVERTER entry, at_KEY_DEVICE_INFO entry with
        | Some inverter, Some device_info =>
            match for_each DOMAIN respond device_info inverter
                    (List.filter (fun dsc => filter dsc inverter) ds) [] w with
            | (Ok entities, w1) =>
                (Ok tt, {| device := device w1;
                           events := events w1 ++ [EvAddEntities entities] |})
            | (Raise x, w1) => (Raise x, w1)
            end
        | _, _ => (Raise KeyError, w)
        end
    end.
Proof.
  unfold setup_with, entry_of, getitem, entry_item, emit, bind, ret, raise.
  destruct (data hass !! DOMAIN) as [domain_data|]; simpl; [|reflexivity].
  destruct (domain_data !! entry_id config_entry) as [entry|]; simpl;
    [|reflexivity].
  destruct (at_KEY_INVERTER entry) as [inverter|]; simpl; [|reflexivity].
  destruct (at_KEY_DEVICE_INFO entry) as [device_info|]; simpl; [|reflexivity].
  destruct (for_each _ _ _ _ _ _ _) as [[entities|x] w1]; reflexivity.
Qed.

(** Whatever the model, the candidates' getters are these four calls. *)
Lemma selected_getters inverter :
  (fun d => getter d inverter) <$> selected inverter =
    [get_grid_export_limit inverter; get_ongrid_battery_dod inverter;
     read_setting inverter "eco_mode_1"; read_setting inverter "eco_mode_1"].
Proof.
  destruct (decide (type_name inverter = "DT")) as [H|H].
  - rewrite selected_DT by exact H. reflexivity.
  - rewrite selected_other by exact H. reflexivity.
Qed.

Lemma selected_length inverter : length (selected inverter) = 4%nat.
Proof.
  rewrite <- (length_fmap (fun d => getter d inverter)), selected_getters.
  reflexivity.
Qed.

(** X1.  Without the entry's data the setup raises [KeyError] before it has
    done anything. *)
Theorem setup_missing_key hass config_entry w :
  match entry_of DOMAIN hass config_entry with
  | Some entry =>
      at_KEY_INVERTER entry = None \/ at_KEY_DEVICE_INFO entry = None
  | None => True
  end ->
  async_setup_entry DOMAIN respond hass config_entry w = (Raise KeyError, w).
Proof.
  unfold async_setup_entry. rewrite setup_with_unfold.
  destruct (entry_of DOMAIN hass config_entry) as [entry|]; [|reflexivity].
  intros [-> | ->]; [reflexivity|].
  destruct (at_KEY_INVERTER entry); reflexivity.
Qed.

(** X2.  A setup that raises has handed nothing to the host. *)
Theorem setup_raise_registers_nothing hass config_entry w w' x :
  async_setup_entry DOMAIN respond hass config_entry w = (Raise x, w') ->
  exists new : list event,
    events w' = events w ++ new /\
    Forall (fun ev => is_add_entities ev = false
                      /\ is_write_ha_state ev = false) new.
Proof.
  unfold async_setup_entry. rewrite setup_with_unfold.
  assert (Hnothing : exists new : list event,
            events w = events w ++ new /\
            Forall (fun ev => is_add_entities ev = false
                              /\ is_write_ha_state ev = false) new)
    by (exists []; rewrite app_nil_r; auto).
  destruct (entry_of DOMAIN hass config_entry) as [entry|];
    [|intros [= _ <-]; exact Hnothing].
  destruct (at_KEY_INVERTER entry) as [inverter|];
    [|intros [= _ <-]; exact Hnothing].
  destruct (at_KEY_DEVICE_INFO entry) as [device_info|];
    [|intros [= _ <-]; exact Hnothing].
  destruct (for_each _ _ _ _ _ _ _) as [[entities|y] w1] eqn:Hloop;
    [discriminate|].
  intros [= _ <-].
  apply loop_trace in Hloop as (new & n & Hev & _ & _ & Hall & _).
  eauto.
Qed.

(** X3.  A completed setup has awaited the getter of each candidate once,
    in the order of the tuple; the eco-mode setting is read twice. *)
Theorem setup_reads_in_order hass config_entry w w' :
  async_setup_entry DOMAIN respond hass config_entry w = (Ok tt, w') ->
  exists entry inverter (new : list event),
    entry_of DOMAIN hass config_entry = Some entry /\
    at_KEY_INVERTER entry = Some inverter /\
    events w' = events w ++ new /\
    awaited new =
      [get_grid_export_limit inverter; get_ongrid_battery_dod inverter;
       read_setting inverter "eco_mode_1"; read_setting inverter "eco_mode_1"].
Proof.
  unfold async_setup_entry. rewrite setup_with_unfold.
  destruct (entry_of DOMAIN hass config_entry) as [entry|]; [|discriminate].
  destruct (at_KEY_INVERTER entry) as [inverter|] eqn:Hinverter;
    [|discriminate].
  destruct (at_KEY_DEVICE_INFO entry) as [device_info|]; [|discriminate].
  destruct (for_each _ _ _ _ _ _ _) as [[entities|y] w1] eqn:Hloop;
    [|discriminate].
  intros [= <-].
  apply loop_trace in Hloop as (new & n & Hev & _ & Haw & _ & -> & _).
  exists entry, inverter, (new ++ [EvAddEntities entities]). simpl.
  rewrite Hev, <- app_assoc, awaited_app, Haw, firstn_all, selected_getters.
  repeat split; try reflexivity. exact Hinverter.
Qed.

(** X4.  However a setup ends, all it has awaited are reads. *)
Theorem setup_never_writes hass config_entry w w' r :
  async_setup_entry DOMAIN respond hass config_entry w = (r, w') ->
  exists new : list event,
    events w' = events w ++ new /\
    (length (awaited new) <= 4)%nat /\
    Forall (fun call => is_read call = true) (awaited new).
Proof.
  unfold async_setup_entry. rewrite setup_with_unfold.
  assert (Hnothing : exists new : list event,
            events w = events w ++ new /\
            (length (awaited new) <= 4)%nat /\
            Forall (fun call => is_read call = true) (awaited new))
    by (exists []; rewrite app_nil_r; simpl; repeat split; [lia|constructor]).
  destruct (entry_of DOMAIN hass config_entry) as [entry|];
    [|intros [= _ <-]; exact Hnothing].
  destruct (at_KEY_INVERTER entry) as [inverter|];
    [|intros [= _ <-]; exact Hnothing].
  destruct (at_KEY_DEVICE_INFO entry) as [device_info|];
    [|intros [= _ <-]; exact Hnothing].
  destruct (for_each _ _ _ _ _ _ _) as [r1 w1] eqn:Hloop.
  apply loop_trace in Hloop as (new & n & Hev & Hn & Haw & _ & _).
  assert (Hreads : Forall (fun call => is_read call = true) (awaited new)).
  { rewrite Haw, fmap_take, selected_getters.
    apply Forall_take. repeat constructor. }
  assert (Hlen : (length (awaited new) <= 4)%nat).
  { rewrite Haw, length_fmap, length_take, selected_length. lia. }
  destruct r1 as [entities|y]; intros [= _ <-]; simpl.
  - exists (new ++ [EvAddEntities entities]).
    rewrite Hev, <- app_assoc, awaited_app. simpl. rewrite app_nil_r. auto.
  - exists new. auto.
Qed.

(** X5.  In a completed setup every candidate has ended as an entity of the
    batch or as a debug message: together they are four. *)
Theorem setup_accounts_for_candidates hass config_entry w w' :
  async_setup_entry DOMAIN respond hass config_entry w = (Ok tt, w') ->
  exists (entities : list InverterNumberEntity) (reads : list event),
    events w' = events w ++ reads ++ [EvAddEntities entities] /\
    (length entities + length (logged reads) = 4)%nat.
Proof.
  unfold async_setup_entry. rewrite setup_with_unfold.
  destruct (entry_of DOMAIN hass config_entry) as [entry|]; [|discriminate].
  destruct (at_KEY_INVERTER entry) as [inverter|]; [|discriminate].
  destruct (at_KEY_DEVICE_INFO entry) as [device_info|]; [|discriminate].
  destruct (for_each _ _ _ _ _ _ _) as [[entities|y] w1] eqn:Hloop;
    [|discriminate].
  intros [= <-].
  apply loop_trace in Hloop as (new & n & Hev & _ & _ & _ & _ & Hcount).
  exists entities, new. simpl. rewrite Hev, <- app_assoc.
  rewrite selected_length in Hcount. simpl in Hcount. auto.
Qed.

(** X6.  The handler catches [InverterError] and [ValueError] only: when
    the read of a candidate raises anything else, the setup raises it there
    and then. *)
Theorem setup_aborts_on_other_error
    hass config_entry entry inverter device_info
    (before after : list GoodweNumberEntityDescription)
    (description : GoodweNumberEntityDescription)
    (entities : list InverterNumberEntity)
    (w w1 w2 : World DevState) (x : exn) :
  entry_of DOMAIN hass config_entry = Some entry ->
  at_KEY_INVERTER entry = Some inverter ->
  at_KEY_DEVICE_INFO entry = Some device_info ->
  selected inverter = before ++ description :: after ->
  for_each DOMAIN respond device_info inverter before [] w = (Ok entities, w1) ->
  read_current_value respond description inverter w1 = (Raise x, w2) ->
  caught x = false ->
  async_setup_entry DOMAIN respond hass config_entry w = (Raise x, w2).
Proof.
  intros Hentry Hinverter Hinfo Hsel Hbefore Hread Hx.
  unfold async_setup_entry.
  rewrite setup_with_unfold, Hentry, Hinverter, Hinfo, Hsel.
  rewrite (loop_aborts_on_other_error device_info inverter before after
             description [] entities w w1 w2 x Hbefore Hread Hx).
  reflexivity.
Qed.

(** X7.  The constructor runs outside the [try]: when [float] rejects the
    value read for a candidate, the setup raises what [float] raised. *)
Theorem setup_aborts_on_bad_value
    hass config_entry entry inverter device_info
    (before after : list GoodweNumberEntityDescription)
    (description : GoodweNumberEntityDescription)
    (entities : list InverterNumberEntity)
    (w w1 w2 : World DevState) (v : pyobj) (x : exn) :
  entry_of DOMAIN hass config_entry = Some entry ->
  at_KEY_INVERTER entry = Some inverter ->
  at_KEY_DEVICE_INFO entry = Some device_info ->
  selected inverter = before ++ description :: after ->
  for_each DOMAIN respond device_info inverter before [] w = (Ok entities, w1) ->
  read_current_value respond description inverter w1 = (Ok v, w2) ->
  py_float v = Raise x ->
  async_setup_entry DOMAIN respond hass config_entry w = (Raise x, w2).
Proof.
  intros Hentry Hinverter Hinfo Hsel Hbefore Hread Hfloat.
  unfold async_setup_entry.
  rewrite setup_with_unfold, Hentry, Hinverter, Hinfo, Hsel.
  rewrite (loop_aborts_on_bad_value device_info inverter before after
             description [] entities w w1 w2 v x Hbefore Hread Hfloat).
  reflexivity.
Qed.

(** X8.  While every request to the inverter fails with an error the
    handler catches, the setup completes all the same: it logs four
    messages and hands the host an empty batch. *)
Theorem setup_on_silent_inverter (P : DevState -> Prop)
    hass config_entry entry inverter device_info (w : World DevState) :
  (forall call st, P st ->
     exists x st', respond call st = (Raise x, st') /\ caught x = true /\ P st') ->
  entry_of DOMAIN hass config_entry = Some entry ->
  at_KEY_INVERTER entry = Some inverter ->
  at_KEY_DEVICE_INFO entry = Some device_info ->
  P (device w) ->
  exists (w' : World DevState) (reads : list event),
    async_setup_entry DOMAIN respond hass config_entry w = (Ok tt, w') /\
    events w' = events w ++ reads ++ [EvAddEntities []] /\
    length (logged reads) = 4%nat /\
    P (device w').
Proof.
  intros Hfail Hentry Hinverter Hinfo Hw.
  destruct (loop_all_skipped device_info inverter P Hfail
              (selected inverter) [] w Hw) as (w1 & Hloop & Hw1).
  pose proof Hloop as Htrace.
  apply loop_trace in Htrace as (new & n & Hev & _ & _ & _ & _ & Hcount).
  rewrite selected_length in Hcount. simpl in Hcount.
  exists {| device := device w1; events := events w1 ++ [EvAddEntities []] |}, new.
  unfold async_setup_entry.
  rewrite setup_with_unfold, Hentry, Hinverter, Hinfo, Hloop. simpl.
  rewrite Hev, <- app_assoc. auto.
Qed.

(** X9.  While the inverter answers every read of a candidate with a number,
    the setup completes with one entity for each candidate, in the order of
    the tuple, and logs no message. *)
Theorem setup_on_answering_inverter (P : DevState -> Prop)
    hass config_entry entry inverter device_info (w : World DevState) :
  (forall d st, d ∈ selected inverter -> P st ->
     exists raw st' v f,
       respond (getter d inverter) st = (Ok raw, st') /\
       mapper d raw = Ok v /\ py_float v = Ok f /\ P st') ->
  entry_of DOMAIN hass config_entry = Some entry ->
  at_KEY_INVERTER entry = Some inverter ->
  at_KEY_DEVICE_INFO entry = Some device_info ->
  P (device w) ->
  exists (w' : World DevState) (reads : list event)
         (entities : list InverterNumberEntity),
    async_setup_entry DOMAIN respond hass config_entry w = (Ok tt, w') /\
    events w' = events w ++ reads ++ [EvAddEntities entities] /\
    entity_description <$> entities = selected inverter /\
    length entities = 4%nat /\
    logged reads = [] /\
    P (device w').
Proof.
  intros Hgood Hentry Hinverter Hinfo Hw.
  destruct (loop_all_created device_info inverter P (selected inverter) Hgood
              [] w Hw) as (news & w1 & Hloop & Hdescr & Hw1).
  change ([] ++ news) with news in Hloop. pose proof Hloop as Htrace.
  apply loop_trace in Htrace as (new & n & Hev & _ & _ & _ & _ & Hcount).
  assert (Hlen : length news = 4%nat).
  { rewrite <- (length_fmap entity_description), Hdescr.
    apply selected_length. }
  rewrite selected_length, Hlen in Hcount. simpl in Hcount.
  exists {| device := device w1; events := events w1 ++ [EvAddEntities news] |},
    new, news.
  unfold async_setup_entry.
  rewrite setup_with_unfold, Hentry, Hinverter, Hinfo, Hloop. simpl.
  rewrite Hev, <- app_assoc.
  repeat split; auto.
  destruct (logged new); [reflexivity|simpl in Hcount; lia].
Qed.

(** X10.  The batch of a completed setup holds at most four entities, their
    descriptors in the order of the tuple; each entity is bound to the
    inverter and the device information of the config entry. *)
Theorem setup_batch_in_tuple_order hass config_entry w w' :
  async_setup_entry DOMAIN respond hass config_entry w = (Ok tt, w') ->
  exists entry inverter device_info (entities : list InverterNumberEntity)
         (before : list event),
    entry_of DOMAIN hass config_entry = Some entry /\
    at_KEY_INVERTER entry = Some inverter /\
    at_KEY_DEVICE_INFO entry = Some device_info /\
    events w' = before ++ [EvAddEntities entities] /\
    entity_description <$> entities `sublist_of` selected inverter /\
    (length entities <= 4)%nat /\
    Forall (fun e => _inverter e = inverter
                     /\ _attr_device_info e = device_info) entities.
Proof.
  intros Hrun.
  apply (setup_with_registers DOMAIN respond NUMBERS) in Hrun
    as (entry & inverter & device_info & entities
        & (Hentry & Hinverter & Hinfo) & (reads & Hev & _) & _ & Hinit & Hsub);
    [|apply NUMBERS_NoDup].
  exists entry, inverter, device_info, entities, (events w ++ reads).
  repeat (split; [assumption|]).
  split; [rewrite Hev, app_assoc; reflexivity|].
  split; [exact Hsub|]. split.
  - apply sublist_length in Hsub.
    rewrite length_fmap, selected_length in Hsub. exact Hsub.
  - apply Forall_forall. intros e He.
    destruct (Hinit e He) as (v & Hnew).
    apply new_entity_fields in Hnew as (_ & _ & Hdev & Hinv & _). auto.
Qed.

End SetupRuns.

(** * Further properties of a write *)

Lemma notified_app (l1 l2 : list event) :
  notified (l1 ++ l2) = notified l1 ++ notified l2.
Proof. apply omap_app. Qed.

(** The setters of the tuple are the two [set_...] coroutines. *)
Lemma setter_is_a_write d set inverter n :
  d ∈ NUMBERS -> setter d = Some set -> is_read (set inverter n) = false.
Proof.
  unfold NUMBERS. rewrite !elem_of_cons, elem_of_nil.
  intros [->|[->|[->|[->|[->|[]]]]]]; simpl; intros [= <-]; reflexivity.
Qed.

Lemma NUMBERS_bounds d :
  d ∈ NUMBERS ->
  (0 <= native_min_value d /\ native_max_value d <= 10000)%Z.
Proof.
  unfold NUMBERS. rewrite !elem_of_cons, elem_of_nil.
  intros [->|[->|[->|[->|[->|[]]]]]]; simpl; lia.
Qed.

(** Every whole number a descriptor of the tuple allows is a double, and
    [int] gives it back. *)
Lemma round_trips_upto k : (0 <= k <= 10000)%Z -> round_trips k = true.
Proof.
  intros Hk.
  assert (H : forallb round_trips (seqZ 0 10001) = true)
    by (vm_compute; reflexivity).
  rewrite forallb_forall in H. apply H.
  apply list_elem_of_In, elem_of_seqZ. lia.
Qed.

Section WriteRuns.

Context {DevState : Type}.
Variable respond : Awaitable -> DevState -> result pyobj * DevState.

Local Abbreviation write := (async_set_native_value respond).

(** A write, by what the descriptor, [int] and the inverter make of it. *)
Lemma write_run self V (w : World DevState) :
  write V (self, w) =
    match setter (entity_description self) with
    | None =>
        (Ok tt,
         (with_native_value self V,
          {| device := device w;
             events := events w ++ [EvWriteHAState (_attr_unique_id self) V] |}))
    | Some set =>
        match py_int V with
        | Raise x => (Raise x, (self, w))
        | Ok n =>
            match respond (set (_inverter self) n) (device w) with
            | (Ok _, d) =>
                (Ok tt,
                 (with_native_value self V,
                  {| device := d;
                     events := events w ++
                       [EvAwait (set (_inverter self) n);
                        EvWriteHAState (_attr_unique_id self) V] |}))
            | (Raise x, d) =>
                (Raise x,
                 (self,
                  {| device := d;
                     events := events w ++ [EvAwait (set (_inverter self) n)] |}))
            end
        end
    end.
Proof.
  unfold async_set_native_value, async_write_ha_state, set_attr_native_value,
    in_world, self_, await, emit, bind, lift, ret; simpl.
  destruct (setter (entity_description self)) as [set|]; simpl; [|reflexivity].
  destruct (py_int V) as [n|x]; simpl; [|destruct w; reflexivity].
  destruct (respond _ _) as [[answer|x] d]; simpl;
    [rewrite <- app_assoc|]; reflexivity.
Qed.

(** X11.  However a write ends, the entity keeps its descriptor, its
    identifier, its device information and its inverter. *)
Theorem write_keeps_identity
    (self self' : InverterNumberEntity) (V : float) (w w' : World DevState)
    (r : result unit) :
  write V (self, w) = (r, (self', w')) ->
  entity_description self' = entity_description self /\
  _attr_unique_id self' = _attr_unique_id self /\
  _attr_device_info self' = _attr_device_info self /\
  _inverter self' = _inverter self.
Proof.
  rewrite write_run.
  destruct (setter (entity_description self)) as [set|].
  - destruct (py_int V) as [n|x].
    + destruct (respond _ _) as [[answer|x] d];
        intros [= _ <- _]; repeat split; reflexivity.
    + intros [= _ <- _]; repeat split; reflexivity.
  - intros [= _ <- _]; repeat split; reflexivity.
Qed.

(** X12.  A write to an entity of this platform never reads from the
    inverter: however it ends, it has awaited at most one coroutine, and
    that one sets a value. *)
Theorem write_never_reads
    (self self' : InverterNumberEntity) (V : float) (w w' : World DevState)
    (r : result unit) :
  entity_description self ∈ NUMBERS ->
  write V (self, w) = (r, (self', w')) ->
  exists new : list event,
    events w' = events w ++ new /\
    (length (awaited new) <= 1)%nat /\
    Forall (fun call => is_read call = false) (awaited new).
Proof.
  intros Hd. rewrite write_run.
  destruct (setter (entity_description self)) as [set|] eqn:Hset.
  - destruct (py_int V) as [n|x].
    + pose proof (setter_is_a_write _ set (_inverter self) n Hd Hset) as Hcall.
      destruct (respond _ _) as [[answer|x] d]; intros [= _ _ <-]; simpl.
      * exists [EvAwait (set (_inverter self) n);
                EvWriteHAState (_attr_unique_id self) V].
        repeat split; [simpl; lia|]. repeat constructor. exact Hcall.
      * exists [EvAwait (set (_inverter self) n)].
        repeat split; [simpl; lia|]. repeat constructor. exact Hcall.
    + intros [= _ _ <-]. exists []. rewrite app_nil_r.
      repeat split; [simpl; lia|constructor].
  - intros [= _ _ <-]; simpl.
    exists [EvWriteHAState (_attr_unique_id self) V].
    repeat split; [simpl; lia|constructor].
Qed.

(** X13.  Of a value with a fractional part the inverter is sent the whole
    part, rounded towards zero, while the entity caches and reports the
    value as it was given. *)
Theorem write_sends_whole_part
    (self : InverterNumberEntity) (s : bool) (m : positive) (e : Z)
    (w : World DevState) (set : Inverter -> Z -> Awaitable)
    (answer : pyobj) (d : DevState) :
  setter (entity_description self) = Some set ->
  (e < 0)%Z ->
  respond (set (_inverter self) (Z.quot (cond_Zopp s (Z.pos m)) (2 ^ (- e))))
    (device w) = (Ok answer, d) ->
  write (S754_finite s m e) (self, w) =
    (Ok tt,
     (with_native_value self (S754_finite s m e),
      {| device := d;
         events := events w ++
           [EvAwait (set (_inverter self)
                       (Z.quot (cond_Zopp s (Z.pos m)) (2 ^ (- e))));
            EvWriteHAState (_attr_unique_id self) (S754_finite s m e)] |})).
Proof.
  intros Hset He Hcall.
  rewrite write_run, Hset, py_int_truncates_fraction, Hcall by exact He.
  reflexivity.
Qed.

(** X14.  After a write that returned, a second write leaves the cached
    value at its own value when it returns and at that of the first when
    it raises; the host has been notified of just the writes that
    returned, in order and under the same identifier. *)
Theorem write_then_write
    (self self1 self2 : InverterNumberEntity) (V1 V2 : float)
    (w w1 w2 : World DevState) (r : result unit) :
  write V1 (self, w) = (Ok tt, (self1, w1)) ->
  write V2 (self1, w1) = (r, (self2, w2)) ->
  exists new : list event,
    events w2 = events w ++ new /\
    _attr_native_value self2 = match r with Ok _ => V2 | Raise _ => V1 end /\
    notified new = V1 :: match r with Ok _ => [V2] | Raise _ => [] end /\
    Forall (fun ev => match ev with
                      | EvWriteHAState id _ => id = _attr_unique_id self
                      | _ => True
                      end) new.
Proof.
  intros H1 H2.
  assert (Hfirst : exists new1 : list event,
            events w1 = events w ++ new1 /\
            self1 = with_native_value self V1 /\
            notified new1 = [V1] /\
            Forall (fun ev => match ev with
                              | EvWriteHAState id _ => id = _attr_unique_id self
                              | _ => True
                              end) new1).
  { rewrite write_run in H1.
    destruct (setter (entity_description self)) as [set|].
    - destruct (py_int V1) as [n|x]; [|discriminate].
      destruct (respond _ _) as [[answer|x] d]; [|discriminate].
      injection H1 as <- <-. simpl. eexists. split; [reflexivity|].
      repeat split. repeat constructor.
    - injection H1 as <- <-. simpl. eexists. split; [reflexivity|].
      repeat split. repeat constructor. }
  destruct Hfirst as (new1 & Hev1 & -> & Hn1 & Hid1).
  rewrite write_run in H2. simpl in H2.
  destruct (setter (entity_description self)) as [set|].
  - destruct (py_int V2) as [n|x].
    + destruct (respond _ _) as [[answer|x] d]; injection H2 as <- <- <-; simpl.
      * exists (new1 ++ [EvAwait (set (_inverter self) n);
                         EvWriteHAState (_attr_unique_id self) V2]).
        rewrite Hev1, <- app_assoc, notified_app, Hn1.
        repeat split. apply Forall_app. split; [exact Hid1|].
        repeat constructor.
      * exists (new1 ++ [EvAwait (set (_inverter self) n)]).
        rewrite Hev1, <- app_assoc, notified_app, Hn1.
        repeat split. apply Forall_app. split; [exact Hid1|].
        repeat constructor.
    + injection H2 as <- <- <-. exists new1. simpl.
      repeat split; assumption.
  - injection H2 as <- <- <-; simpl.
    exists (new1 ++ [EvWriteHAState (_attr_unique_id self) V2]).
    rewrite Hev1, <- app_assoc, notified_app, Hn1.
    repeat split. apply Forall_app. split; [exact Hid1|].
    repeat constructor.
Qed.

(** X15.  An entity built from a whole number within the bounds of its
    descriptor, when its own value is written back, sends the inverter
    that very number and is left as it was. *)
Theorem write_back_round_trip
    (DOMAIN : string) (device_info : DeviceInfo)
    (d : GoodweNumberEntityDescription) (inverter : Inverter) (k : Z)
    (set : Inverter -> Z -> Awaitable) (w : World DevState)
    (answer : pyobj) (dev : DevState) :
  d ∈ NUMBERS ->
  (native_min_value d <= k <= native_max_value d)%Z ->
  setter d = Some set ->
  respond (set inverter k) (device w) = (Ok answer, dev) ->
  exists e,
    __init__ DOMAIN device_info d inverter (PyInt k) = Ok e /\
    write (_attr_native_value e) (e, w) =
      (Ok tt,
       (e,
        {| device := dev;
           events := events w ++
             [EvAwait (set inverter k);
              EvWriteHAState (_attr_unique_id e) (_attr_native_value e)] |})).
Proof.
  intros Hd Hk Hset Hcall.
  pose proof (NUMBERS_bounds d Hd) as Hbounds.
  pose proof (round_trips_upto k ltac:(lia)) as Htrip.
  unfold round_trips in Htrip. unfold __init__.
  destruct (py_float (PyInt k)) as [f|x]; [|discriminate].
  destruct (py_int f) as [n|x] eqn:Hint; [|discriminate].
  apply Z.eqb_eq in Htrip. subst n.
  eexists. split; [reflexivity|].
  rewrite write_run. simpl. rewrite Hset, Hint, Hcall. reflexivity.
Qed.

End WriteRuns.

(** ** From the setup to a write *)

Lemma setter_targets_its_inverter d set inverter n :
  d ∈ NUMBERS -> setter d = Some set -> target (set inverter n) = inverter.
Proof.
  unfold NUMBERS. rewrite !elem_of_cons, elem_of_nil.
  intros [->|[->|[->|[->|[->|[]]]]]]; simpl; intros [= <-]; reflexivity.
Qed.

Section SetupThenWrite.

Variable DOMAIN : string.
Context {DevState : Type}.
Variable respond : Awaitable -> DevState -> result pyobj * DevState.

(** X16.  A write to an entity that a setup has handed to the host goes to
    the inverter of the config entry and to no other: whatever it awaits
    is a setting call on that inverter. *)
Theorem batch_entity_writes_to_entry_inverter
    hass config_entry (w w' : World DevState)
    (before : list event) (entities : list InverterNumberEntity)
    (e e' : InverterNumberEntity) (V : float) (w0 w0' : World DevState)
    (r : result unit) :
  async_setup_entry DOMAIN respond hass config_entry w = (Ok tt, w') ->
  events w' = before ++ [EvAddEntities entities] ->
  e ∈ entities ->
  async_set_native_value respond V (e, w0) = (r, (e', w0')) ->
  exists entry inverter (new : list event),
    entry_of DOMAIN hass config_entry = Some entry /\
    at_KEY_INVERTER entry = Some inverter /\
    events w0' = events w0 ++ new /\
    Forall (fun call => target call = inverter /\ is_read call = false)
      (awaited new).
Proof.
  intros Hrun Hbatch He Hwrite.
  apply (setup_with_registers DOMAIN respond NUMBERS) in Hrun
    as (entry & inverter & device_info & entities'
        & (Hentry & Hinverter & _) & (reads & Hev & _) & _ & Hinit & Hsub);
    [|apply NUMBERS_NoDup].
  rewrite Hev, app_assoc in Hbatch.
  apply app_inj_tail in Hbatch as [_ [= ->]].
  assert (Hd : entity_description e ∈ NUMBERS).
  { assert (Hin : entity_description e ∈ entity_description <$> entities)
      by (apply list_elem_of_fmap_2, He).
    apply (elem_of_sublist _ _ _ Hin) in Hsub.
    apply list_elem_of_In, filter_In in Hsub as [Hsub _].
    apply list_elem_of_In, Hsub. }
  destruct (Hinit e He) as (v & Hnew).
  apply new_entity_fields in Hnew as (_ & _ & _ & Hinv & _).
  exists entry, inverter. rewrite write_run, Hinv in Hwrite.
  destruct (setter (entity_description e)) as [set|] eqn:Hset.
  - destruct (py_int V) as [n|x].
    + pose proof (setter_is_a_write _ set inverter n Hd Hset) as Hcall.
      pose proof (setter_targets_its_inverter _ set inverter n Hd Hset) as Hto.
      destruct (respond _ _) as [[answer|x] d]; injection Hwrite as _ _ <-; simpl.
      * exists [EvAwait (set inverter n); EvWriteHAState (_attr_unique_id e) V].
        repeat split; try assumption. repeat constructor; assumption.
      * exists [EvAwait (set inverter n)].
        repeat split; try assumption. repeat constructor; assumption.
    + injection Hwrite as _ _ <-. exists []. rewrite app_nil_r.
      repeat split; try assumption. constructor.
  - injection Hwrite as _ _ <-. simpl.
    exists [EvWriteHAState (_attr_unique_id e) V].
    repeat split; try assumption. constructor.
Qed.

End SetupThenWrite.

(** * Further properties of the descriptors and the identifiers *)

(** X17.  The mapper of [eco_mode_power] never yields a negative number. *)
Theorem eco_mode_power_not_negative
    (power : GoodweNumberEntityDescription) (v r : pyobj) :
  power ∈ NUMBERS ->
  key power = "eco_mode_power" ->
  mapper power v = Ok r ->
  match r with
  | PyInt k => (0 <= k)%Z
  | PyFloat f => SFabs f = f
  | _ => False
  end.
Proof.
  unfold NUMBERS. rewrite !elem_of_cons, elem_of_nil.
  intros [->|[->|[->|[->|[->|[]]]]]]; simpl; try discriminate.
  intros _. destruct (py_bool v).
  - destruct (getattr v "power") as [p|x]; [|discriminate].
    destruct p as [|z|f|attrs]; simpl; try discriminate.
    + intros [= <-]. lia.
    + intros [= <-]. destruct f; reflexivity.
  - intros [= <-]. lia.
Qed.

Lemma append_dash_inv (k1 k2 s1 s2 : string) :
  k1 ∈ key <$> NUMBERS -> k2 ∈ key <$> NUMBERS ->
  (k1 ++ "-" ++ s1 = k2 ++ "-" ++ s2)%string ->
  k1 = k2 /\ s1 = s2.
Proof.
  unfold NUMBERS. simpl. rewrite !elem_of_cons, !elem_of_nil.
  intros [->|[->|[->|[->|[->|[]]]]]] [->|[->|[->|[->|[->|[]]]]]];
    intros H; cbv in H; split; congruence.
Qed.

(** X18.  The identifier of an entity tells its key and the serial number of
    its inverter: two entities of this platform with the same identifier
    have the same key and inverters with the same serial number. *)
Theorem unique_id_tells_key_and_serial
    (DOMAIN : string) (info1 info2 : DeviceInfo)
    (d1 d2 : GoodweNumberEntityDescription) (inv1 inv2 : Inverter)
    (v1 v2 : pyobj) (e1 e2 : InverterNumberEntity) :
  d1 ∈ NUMBERS -> d2 ∈ NUMBERS ->
  __init__ DOMAIN info1 d1 inv1 v1 = Ok e1 ->
  __init__ DOMAIN info2 d2 inv2 v2 = Ok e2 ->
  _attr_unique_id e1 = _attr_unique_id e2 ->
  key d1 = key d2 /\ serial_number inv1 = serial_number inv2.
Proof.
  intros Hd1 Hd2 H1 H2 Hid.
  apply new_entity_fields in H1 as (_ & Hid1 & _).
  apply new_entity_fields in H2 as (_ & Hid2 & _).
  rewrite Hid1, Hid2 in Hid.
  apply (inj (String.app DOMAIN)) in Hid.
  apply (inj (String.app "-")) in Hid.
  apply append_dash_inv in Hid; [exact Hid| |];
    apply list_elem_of_fmap_2; assumption.
Qed.

(** ** Further runs on the demo inverter *)

(** A host without data for the integration, and one whose entry lacks
    the device information: the setup raises [KeyError] at once. *)
Lemma setup_missing_key_witness :
  async_setup_entry Demo.DOMAIN Demo.respond Demo.bare_hass
    Demo.config_entry Demo.world0 = (Raise KeyError, Demo.world0) /\
  async_setup_entry Demo.DOMAIN Demo.respond Demo.half_hass
    Demo.config_entry Demo.world0 = (Raise KeyError, Demo.world0).
Proof.
  split.
  - apply (setup_missing_key Demo.DOMAIN Demo.respond Demo.bare_hass
             Demo.config_entry Demo.world0).
    vm_compute. exact I.
  - apply (setup_missing_key Demo.DOMAIN Demo.respond Demo.half_hass
             Demo.config_entry Demo.world0).
    vm_compute. right. reflexivity.
Defined.

(** On the inverter whose eco-mode setting reads as a bare number the
    setup raises [AttributeError]; the host has received nothing. *)
Lemma setup_raise_registers_nothing_witness :
  fst (async_setup_entry Demo.DOMAIN Demo.respond_bare (Demo.hass_of Demo.et)
         Demo.config_entry Demo.world0) = Raise AttributeError /\
  exists new : list event,
    events (snd (async_setup_entry Demo.DOMAIN Demo.respond_bare
                   (Demo.hass_of Demo.et) Demo.config_entry Demo.world0))
      = events Demo.world0 ++ new /\
    Forall (fun ev => is_add_entities ev = false
                      /\ is_write_ha_state ev = false) new.
Proof.
  split; [vm_compute; reflexivity|].
  apply (setup_raise_registers_nothing Demo.DOMAIN Demo.respond_bare
           (Demo.hass_of Demo.et) Demo.config_entry Demo.world0 _
           AttributeError).
  vm_compute. reflexivity.
Defined.

(** The setup on the ET inverter has awaited the four reads. *)
Lemma setup_reads_in_order_witness :
  exists new : list event,
    events Demo.after_setup = events Demo.world0 ++ new /\
    awaited new =
      [get_grid_export_limit Demo.et; get_ongrid_battery_dod Demo.et;
       read_setting Demo.et "eco_mode_1"; read_setting Demo.et "eco_mode_1"].
Proof.
  assert (Hrun : async_setup_entry Demo.DOMAIN Demo.respond
                   (Demo.hass_of Demo.et) Demo.config_entry Demo.world0
                 = (Ok tt, Demo.after_setup))
    by (vm_compute; reflexivity).
  destruct (setup_reads_in_order Demo.DOMAIN Demo.respond
              (Demo.hass_of Demo.et) Demo.config_entry Demo.world0
              Demo.after_setup Hrun)
    as (entry & inverter & new & Hentry & Hinverter & Hev & Haw).
  vm_compute in Hentry. injection Hentry as <-.
  simpl in Hinverter. injection Hinverter as <-.
  exists new. split; [exact Hev|exact Haw].
Defined.

(** The setup that raised has awaited reads only. *)
Lemma setup_never_writes_witness :
  exists new : list event,
    events (snd (async_setup_entry Demo.DOMAIN Demo.respond_bare
                   (Demo.hass_of Demo.et) Demo.config_entry Demo.world0))
      = events Demo.world0 ++ new /\
    (length (awaited new) <= 4)%nat /\
    Forall (fun call => is_read call = true) (awaited new).
Proof.
  apply (setup_never_writes Demo.DOMAIN Demo.respond_bare
           (Demo.hass_of Demo.et) Demo.config_entry Demo.world0 _
           (Raise AttributeError)).
  vm_compute. reflexivity.
Defined.

(** On the ET inverter without a battery: three entities, one message. *)
Lemma setup_accounts_for_candidates_witness :
  exists (entities : list InverterNumberEntity) (reads : list event),
    events Demo.after_setup
      = events Demo.world0 ++ reads ++ [EvAddEntities entities] /\
    (length entities + length (logged reads) = 4)%nat.
Proof.
  apply (setup_accounts_for_candidates Demo.DOMAIN Demo.respond
           (Demo.hass_of Demo.et) Demo.config_entry Demo.world0
           Demo.after_setup).
  vm_compute. reflexivity.
Defined.

(** The bare number has no [power]: the mapper of [eco_mode_power] raises
    [AttributeError], which ends the setup after two reads went well. *)
Lemma setup_aborts_on_other_error_witness :
  async_setup_entry Demo.DOMAIN Demo.respond_bare (Demo.hass_of Demo.et)
    Demo.config_entry Demo.world0 =
    (Raise AttributeError,
     {| device := device Demo.world0;
        events := [EvAwait (get_grid_export_limit Demo.et);
                   EvAwait (get_ongrid_battery_dod Demo.et);
                   EvLogDebug "battery_discharge_depth";
                   EvAwait (read_setting Demo.et "eco_mode_1")] |}).
Proof.
  apply (setup_aborts_on_other_error Demo.DOMAIN Demo.respond_bare
           (Demo.hass_of Demo.et) Demo.config_entry
           {| at_KEY_INVERTER := Some Demo.et;
              at_KEY_DEVICE_INFO := Some Demo.device_info |}
           Demo.et Demo.device_info
           [Demo.descr 0; Demo.descr 2] [Demo.descr 4] (Demo.descr 3)
           [Demo.entity_of 0 Demo.et Demo.f5000]
           Demo.world0
           {| device := device Demo.world0;
              events := [EvAwait (get_grid_export_limit Demo.et);
                         EvAwait (get_ongrid_battery_dod Demo.et);
                         EvLogDebug "battery_discharge_depth"] |});
    vm_compute; reflexivity.
Defined.

(** An export limit that reads as [None] is no number: [float] raises
    [TypeError] and so does the setup. *)
Lemma setup_aborts_on_bad_value_witness :
  async_setup_entry Demo.DOMAIN Demo.respond_no_limit (Demo.hass_of Demo.et)
    Demo.config_entry Demo.world0 =
    (Raise TypeError,
     {| device := device Demo.world0;
        events := [EvAwait (get_grid_export_limit Demo.et)] |}).
Proof.
  apply (setup_aborts_on_bad_value Demo.DOMAIN Demo.respond_no_limit
           (Demo.hass_of Demo.et) Demo.config_entry
           {| at_KEY_INVERTER := Some Demo.et;
              at_KEY_DEVICE_INFO := Some Demo.device_info |}
           Demo.et Demo.device_info
           [] [Demo.descr 2; Demo.descr 3; Demo.descr 4] (Demo.descr 0)
           [] Demo.world0 Demo.world0 _ PyNone);
    vm_compute; reflexivity.
Defined.

(** Out of reach, the demo inverter fails every request: the setup hands
    over an empty batch. *)
Lemma setup_on_silent_inverter_witness :
  exists (w' : World Demo.State) (reads : list event),
    async_setup_entry Demo.DOMAIN Demo.respond (Demo.hass_of Demo.et)
      Demo.config_entry Demo.offline = (Ok tt, w') /\
    events w' = events Demo.offline ++ reads ++ [EvAddEntities []] /\
    length (logged reads) = 4%nat /\
    Demo.reachable (device w') = false.
Proof.
  apply (setup_on_silent_inverter Demo.DOMAIN Demo.respond
           (fun st => Demo.reachable st = false)
           (Demo.hass_of Demo.et) Demo.config_entry
           {| at_KEY_INVERTER := Some Demo.et;
              at_KEY_DEVICE_INFO := Some Demo.device_info |}
           Demo.et Demo.device_info Demo.offline).
  - intros call st Hst. exists InverterError, st.
    unfold Demo.respond. rewrite Hst. simpl. auto.
  - vm_compute. reflexivity.
  - reflexivity.
  - reflexivity.
  - reflexivity.
Defined.

(** In reach and with a battery, the demo inverter answers every read: the
    setup on the ET inverter creates all four entities. *)
Lemma setup_on_answering_inverter_witness :
  exists (w' : World Demo.State) (reads : list event)
         (entities : list InverterNumberEntity),
    async_setup_entry Demo.DOMAIN Demo.respond (Demo.hass_of Demo.et)
      Demo.config_entry Demo.with_battery = (Ok tt, w') /\
    events w' = events Demo.with_battery ++ reads ++ [EvAddEntities entities] /\
    entity_description <$> entities
      = List.filter (fun dsc => filter dsc Demo.et) NUMBERS /\
    length entities = 4%nat /\
    logged reads = [] /\
    device w' = device Demo.with_battery.
Proof.
  apply (setup_on_answering_inverter Demo.DOMAIN Demo.respond
           (fun st => st = device Demo.with_battery)
           (Demo.hass_of Demo.et) Demo.config_entry
           {| at_KEY_INVERTER := Some Demo.et;
              at_KEY_DEVICE_INFO := Some Demo.device_info |}
           Demo.et Demo.device_info Demo.with_battery).
  - intros d st Hd ->. apply list_elem_of_In in Hd. simpl in Hd.
    destruct Hd as [<-|[<-|[<-|[<-|[]]]]];
      do 4 eexists; repeat split; vm_compute; reflexivity.
  - vm_compute. reflexivity.
  - reflexivity.
  - reflexivity.
  - reflexivity.
Defined.

(** The batch on the ET inverter: three entities, all bound to it. *)
Lemma setup_batch_in_tuple_order_witness :
  exists (entities : list InverterNumberEntity) (before : list event),
    events Demo.after_setup = before ++ [EvAddEntities entities] /\
    entity_description <$> entities
      `sublist_of` List.filter (fun dsc => filter dsc Demo.et) NUMBERS /\
    (length entities <= 4)%nat /\
    Forall (fun e => _inverter e = Demo.et
                     /\ _attr_device_info e = Demo.device_info) entities.
Proof.
  assert (Hrun : async_setup_entry Demo.DOMAIN Demo.respond
                   (Demo.hass_of Demo.et) Demo.config_entry Demo.world0
                 = (Ok tt, Demo.after_setup))
    by (vm_compute; reflexivity).
  destruct (setup_batch_in_tuple_order Demo.DOMAIN Demo.respond
              (Demo.hass_of Demo.et) Demo.config_entry Demo.world0
              Demo.after_setup Hrun)
    as (entry & inverter & device_info & entities & before
        & Hentry & Hinverter & Hinfo & Hev & Hsub & Hlen & Hall).
  vm_compute in Hentry. injection Hentry as <-.
  simpl in Hinverter, Hinfo. injection Hinverter as <-. injection Hinfo as <-.
  exists entities, before. auto.
Defined.

(** The write that failed out of reach left the entity what it was. *)
Lemma write_keeps_identity_witness :
  _attr_unique_id (Demo.entity_of 0 Demo.et Demo.f5000)
    = "goodwe-grid_export_limit-95027EST" /\
  _inverter (Demo.entity_of 0 Demo.et Demo.f5000) = Demo.et.
Proof.
  destruct (write_keeps_identity Demo.respond
              (Demo.entity_of 0 Demo.et Demo.f5000)
              (Demo.entity_of 0 Demo.et Demo.f5000) Demo.f2500 Demo.offline
              {| device := device Demo.offline;
                 events := [EvAwait (set_grid_export_limit Demo.et 2500)] |}
              (Raise InverterError) eq_refl)
    as (_ & Hid & _ & Hinv).
  split; [exact Hid|exact Hinv].
Defined.

(** The write of 2500.0 in reach awaited one call, which sets a value. *)
Lemma write_never_reads_witness :
  exists new : list event,
    [EvAwait (set_grid_export_limit Demo.et 2500);
     EvWriteHAState "goodwe-grid_export_limit-95027EST" Demo.f2500]
      = events Demo.world0 ++ new /\
    (length (awaited new) <= 1)%nat /\
    Forall (fun call => is_read call = false) (awaited new).
Proof.
  apply (write_never_reads Demo.respond
           (Demo.entity_of 0 Demo.et Demo.f5000)
           (Demo.entity_of 0 Demo.et Demo.f2500) Demo.f2500 Demo.world0
           {| device := {| Demo.reachable := true; Demo.limit := 2500;
                           Demo.dod := None |};
              events := [EvAwait (set_grid_export_limit Demo.et 2500);
                         EvWriteHAState "goodwe-grid_export_limit-95027EST"
                           Demo.f2500] |}
           (Ok tt)).
  - apply list_elem_of_lookup. exists 0%nat. reflexivity.
  - reflexivity.
Defined.

(** Of 42.75 the DT inverter is sent 42; the entity keeps 42.75. *)
Lemma write_sends_whole_part_witness :
  async_set_native_value Demo.respond Demo.f42_75
    (Demo.entity_of 1 Demo.dt Demo.f5000, Demo.world0) =
    (Ok tt,
     (Demo.entity_of 1 Demo.dt Demo.f42_75,
      {| device := {| Demo.reachable := true; Demo.limit := 42; Demo.dod := None |};
         events := [EvAwait (set_grid_export_limit Demo.dt 42);
                    EvWriteHAState "goodwe-grid_export_limit-6050KDTU"
                      Demo.f42_75] |})).
Proof.
  apply (write_sends_whole_part Demo.respond
           (Demo.entity_of 1 Demo.dt Demo.f5000)
           false 6016527627190272 (-47) Demo.world0
           (fun inv val => set_grid_export_limit inv val) PyNone
           {| Demo.reachable := true; Demo.limit := 42; Demo.dod := None |}).
  - reflexivity.
  - lia.
  - reflexivity.
Defined.

(** A write of 2500.0 and then one of 42.75: the host heard of both, the
    entity holds 42.75. *)
Lemma write_then_write_witness :
  exists new : list event,
    [EvAwait (set_grid_export_limit Demo.et 2500);
     EvWriteHAState "goodwe-grid_export_limit-95027EST" Demo.f2500;
     EvAwait (set_grid_export_limit Demo.et 42);
     EvWriteHAState "goodwe-grid_export_limit-95027EST" Demo.f42_75]
      = events Demo.world0 ++ new /\
    _attr_native_value (Demo.entity_of 0 Demo.et Demo.f42_75) = Demo.f42_75 /\
    notified new = [Demo.f2500; Demo.f42_75] /\
    Forall (fun ev => match ev with
                      | EvWriteHAState id _ =>
                          id = "goodwe-grid_export_limit-95027EST"
                      | _ => True
                      end) new.
Proof.
  apply (write_then_write Demo.respond
           (Demo.entity_of 0 Demo.et Demo.f5000)
           (Demo.entity_of 0 Demo.et Demo.f2500)
           (Demo.entity_of 0 Demo.et Demo.f42_75)
           Demo.f2500 Demo.f42_75 Demo.world0
           {| device := {| Demo.reachable := true; Demo.limit := 2500;
                           Demo.dod := None |};
              events := [EvAwait (set_grid_export_limit Demo.et 2500);
                         EvWriteHAState "goodwe-grid_export_limit-95027EST"
                           Demo.f2500] |}
           {| device := {| Demo.reachable := true; Demo.limit := 42;
                           Demo.dod := None |};
              events := [EvAwait (set_grid_export_limit Demo.et 2500);
                         EvWriteHAState "goodwe-grid_export_limit-95027EST"
                           Demo.f2500;
                         EvAwait (set_grid_export_limit Demo.et 42);
                         EvWriteHAState "goodwe-grid_export_limit-95027EST"
                           Demo.f42_75] |}
           (Ok tt)).
  - reflexivity.
  - reflexivity.
Defined.

(** The entity read at 5000 W writes 5000 back. *)
Lemma write_back_round_trip_witness :
  exists e,
    __init__ Demo.DOMAIN Demo.device_info (Demo.descr 0) Demo.et (PyInt 5000)
      = Ok e /\
    async_set_native_value Demo.respond (_attr_native_value e) (e, Demo.world0) =
      (Ok tt,
       (e,
        {| device := device Demo.world0;
           events := events Demo.world0 ++
             [EvAwait (set_grid_export_limit Demo.et 5000);
              EvWriteHAState (_attr_unique_id e) (_attr_native_value e)] |})).
Proof.
  apply (write_back_round_trip Demo.respond Demo.DOMAIN Demo.device_info
           (Demo.descr 0) Demo.et 5000
           (fun inv val => set_grid_export_limit inv val) Demo.world0 PyNone
           (device Demo.world0)).
  - apply list_elem_of_lookup. exists 0%nat. reflexivity.
  - simpl. lia.
  - reflexivity.
  - reflexivity.
Defined.

(** On the demo reading the mapper gives 450. *)
Lemma eco_mode_power_not_negative_witness :
  mapper (Demo.descr 3) (PyObject [("power", PyInt (-450)); ("soc", PyInt 20)])
    = Ok (PyInt 450) /\
  (0 <= 450)%Z.
Proof.
  split; [reflexivity|].
  apply (eco_mode_power_not_negative (Demo.descr 3)
           (PyObject [("power", PyInt (-450)); ("soc", PyInt 20)])
           (PyInt 450)).
  - apply list_elem_of_lookup. exists 3%nat. reflexivity.
  - reflexivity.
  - reflexivity.
Defined.

(** A write of 2500.0 to the export limit entity of the batch goes to the
    ET inverter. *)
Lemma batch_entity_writes_to_entry_inverter_witness :
  exists new : list event,
    [EvAwait (set_grid_export_limit Demo.et 2500);
     EvWriteHAState "goodwe-grid_export_limit-95027EST" Demo.f2500]
      = events Demo.world0 ++ new /\
    Forall (fun call => target call = Demo.et /\ is_read call = false)
      (awaited new).
Proof.
  destruct (batch_entity_writes_to_entry_inverter Demo.DOMAIN Demo.respond
              (Demo.hass_of Demo.et) Demo.config_entry Demo.world0
              Demo.after_setup
              [EvAwait (get_grid_export_limit Demo.et);
               EvAwait (get_ongrid_battery_dod Demo.et);
               EvLogDebug "battery_discharge_depth";
               EvAwait (read_setting Demo.et "eco_mode_1");
               EvAwait (read_setting Demo.et "eco_mode_1")]
              [Demo.entity_of 0 Demo.et Demo.f5000;
               Demo.entity_of 3 Demo.et
                 (S754_finite false 7916483719987200 (-44));
               Demo.entity_of 4 Demo.et
                 (S754_finite false 5629499534213120 (-48))]
              (Demo.entity_of 0 Demo.et Demo.f5000)
              (Demo.entity_of 0 Demo.et Demo.f2500) Demo.f2500 Demo.world0
              {| device := {| Demo.reachable := true; Demo.limit := 2500;
                              Demo.dod := None |};
                 events := [EvAwait (set_grid_export_limit Demo.et 2500);
                            EvWriteHAState "goodwe-grid_export_limit-95027EST"
                              Demo.f2500] |}
              (Ok tt))
    as (entry & inverter & new & Hentry & Hinverter & Hev & Hall).
  - vm_compute. reflexivity.
  - vm_compute. reflexivity.
  - apply elem_of_cons. left. reflexivity.
  - reflexivity.
  - vm_compute in Hentry. injection Hentry as <-.
    simpl in Hinverter. injection Hinverter as <-.
    exists new. split; [exact Hev|exact Hall].
Defined.

(** The two export limits of one serial number share their identifier:
    they have the same key. *)
Lemma unique_id_tells_key_and_serial_witness :
  key (Demo.descr 0) = key (Demo.descr 1) /\
  serial_number Demo.et
    = serial_number {| type_name := "DT"; serial_number := "95027EST" |}.
Proof.
  apply (unique_id_tells_key_and_serial Demo.DOMAIN
           Demo.device_info Demo.device_info (Demo.descr 0) (Demo.descr 1)
           Demo.et {| type_name := "DT"; serial_number := "95027EST" |}
           (PyInt 5000) (PyInt 80)
           (Demo.entity_of 0 Demo.et Demo.f5000)
           {| entity_description := Demo.descr 1;
              _attr_unique_id := "goodwe-grid_export_limit-95027EST";
              _attr_device_info := Demo.device_info;
              _attr_native_value := S754_finite false 5629499534213120 (-46);
              _inverter := {| type_name := "DT"; serial_number := "95027EST" |} |}).
  - apply list_elem_of_lookup. exists 0%nat. reflexivity.
  - apply list_elem_of_lookup. exists 1%nat. reflexivity.
  - vm_compute. reflexivity.
  - vm_compute. reflexivity.
  - reflexivity.
Defined.
